(** * PPP calculator: a shallow embedding of [calculate_ppp]

    The development embeds the function [calculate_ppp] of
    [src/ppp_calculator.py] together with the part of pandas / NumPy it
    calls, and proves the properties of the natural-language specification
    about it.

    Layout:
    - [F64]      : IEEE-754 binary64 arithmetic (Stdlib's [SpecFloat]);
    - Python objects and exceptions;
    - [Series]   : typed columns ([int64], [float64], [object]), their
                   division, NumPy's pairwise sum and the pandas mean;
    - [DataFrame]: an index and a finite map from column names to columns;
    - [Py]       : a state-and-exception monad over a store of frames;
    - [calculate_ppp], statement by statement;
    - the row-level vocabulary of the specification and the theorems. *)

From Stdlib Require Import ZArith Lia.
From Stdlib Require Import Floats.SpecFloat.
From stdpp Require Import base strings list gmap.

Local Open Scope Z_scope.

(* ===================================================================== *)
(** ** Binary64 floating point *)
(* ===================================================================== *)

Module F64.

Definition prec : Z := 53.
Definition emax : Z := 1024.

(** A Python [float] / NumPy [float64]. *)
Definition float64 : Type := spec_float.

Definition nan : float64 := S754_nan.
Definition zero : float64 := S754_zero false.
Definition nzero : float64 := S754_zero true.
Definition pinf : float64 := S754_infinity false.

Definition add (x y : float64) : float64 := SFadd prec emax x y.
Definition div (x y : float64) : float64 := SFdiv prec emax x y.

(** Conversion of an integer, rounding to nearest even; an integer too
    large for the format becomes an infinity. *)
Definition of_Z (n : Z) : float64 := binary_normalize prec emax n 0 false.

Definition is_nan (x : float64) : bool :=
  match x with S754_nan => true | _ => false end.

Definition is_inf (x : float64) : bool :=
  match x with S754_infinity _ => true | _ => false end.

Definition is_zero (x : float64) : bool :=
  match x with S754_zero _ => true | _ => false end.

(** [math.isfinite]: neither an infinity nor NaN. *)
Definition is_finite (x : float64) : bool :=
  match x with
  | S754_zero _ | S754_finite _ _ _ => true
  | S754_infinity _ | S754_nan => false
  end.

(** The finite numbers that a rounding can return: at most [prec]
    digits and an exponent that does not exceed the largest one. *)
Definition in_range (x : float64) : Prop :=
  match x with
  | S754_finite _ m e => Zpos (digits2_pos m) <= prec /\ e <= emax - prec
  | _ => True
  end.

End F64.

Export F64(float64).

(* ===================================================================== *)
(** ** Python objects and exceptions *)
(* ===================================================================== *)

(** The Python values that occur as arguments and as cells of a price
    table: [None], strings, integers (unbounded) and floats.  These are
    the cells of the tables in the repository and in the specification
    (missing, numeric, non-numeric).  A table can hold objects of other
    Python types as well ([bool], [complex], [Decimal], dates, ...);
    they are outside this model, and every statement below is about
    tables whose cells are of these four kinds. *)
Inductive PyObject : Type :=
  | PyNone
  | PyStr (s : string)
  | PyInt (n : Z)
  | PyFloat (x : float64).

(** The exception classes that the function or the operations it calls
    can raise.  [ValueError] carries its message. *)
Inductive exn : Type :=
  | ValueError (msg : string)
  | AttributeError
  | KeyError (key : string)
  | TypeError
  | ZeroDivisionError
  | OverflowError.

Inductive result (A : Type) : Type :=
  | Ok (a : A)
  | Raise (e : exn).

Arguments Ok {A} a.
Arguments Raise {A} e.

Definition result_bind {A B} (r : result A) (k : A -> result B) : result B :=
  match r with
  | Ok a => k a
  | Raise e => Raise e
  end.

Definition result_map {A B} (f : A -> B) (r : result A) : result B :=
  result_bind r (fun a => Ok (f a)).

(** [[f(x) for x in l]], stopping at the first exception. *)
Fixpoint result_mapM {A B} (f : A -> result B) (l : list A) : result (list B) :=
  match l with
  | [] => Ok []
  | x :: l' =>
      result_bind (f x) (fun y =>
      result_bind (result_mapM f l') (fun ys => Ok (y :: ys)))
  end.

(** [isinstance(o, str)] *)
Definition isinstance_str (o : PyObject) : bool :=
  match o with PyStr _ => true | _ => false end.

(** [pd.isna(o)] on a scalar: [None] and the float NaN are missing. *)
Definition isna (o : PyObject) : bool :=
  match o with
  | PyNone => true
  | PyFloat x => F64.is_nan x
  | _ => false
  end.

(** [np.isreal(o)] on a scalar, that is [np.imag(o) == 0].  Integers and
    floats have a zero imaginary part.  A string is turned into a string
    array whose imaginary part is the empty string, which is not equal to
    0; [None] is turned into an object array whose imaginary part is the
    integer 0. *)
Definition isreal (o : PyObject) : bool :=
  match o with
  | PyStr _ => false
  | PyNone | PyInt _ | PyFloat _ => true
  end.

(** Conversion to a C double, as [float.__truediv__] and friends do with
    an [int] operand: OverflowError when the integer is too large. *)
Definition as_double (o : PyObject) : result float64 :=
  match o with
  | PyFloat x => Ok x
  | PyInt n =>
      let x := F64.of_Z n in
      if F64.is_inf x then Raise OverflowError else Ok x
  | _ => Raise TypeError
  end.

(** The integer [n] as an (unnormalised) binary float with exponent 0. *)
Definition raw_of_Z (n : Z) : float64 :=
  match n with
  | Z0 => S754_zero false
  | Zpos p => S754_finite false p 0
  | Zneg p => S754_finite true p 0
  end.

(** Python's [a / b] on objects; the result is a Python float, given
    here by its value.
    - [int / int] is the correctly rounded quotient of the two integers;
      it raises ZeroDivisionError for a zero divisor and OverflowError
      when the quotient is too large for a float;
    - when a float is involved, both operands are converted to doubles
      (OverflowError), a zero divisor raises ZeroDivisionError, and the
      quotient is the IEEE one;
    - other operands do not support [/]. *)
Definition py_truediv (a b : PyObject) : result float64 :=
  match a, b with
  | PyInt x, PyInt y =>
      if y =? 0 then Raise ZeroDivisionError
      else
        let q := F64.div (raw_of_Z x) (raw_of_Z y) in
        if F64.is_inf q then Raise OverflowError else Ok q
  | PyInt _, PyFloat _ | PyFloat _, PyInt _ | PyFloat _, PyFloat _ =>
      result_bind (as_double a) (fun x =>
      result_bind (as_double b) (fun y =>
      if F64.is_zero y then Raise ZeroDivisionError
      else Ok (F64.div x y)))
  | _, _ => Raise TypeError
  end.

(* ===================================================================== *)
(** ** Series: typed columns *)
(* ===================================================================== *)

(** A column of a frame with its dtype.  A list of Python integers is
    stored as [int64], a list of floats (or of numbers and [None], which
    becomes NaN) as [float64], and a list that mixes in a string keeps
    the Python objects ([object] dtype), as the column [[100, 'a', 150]]
    of [test_non_numeric_prices] does. *)
Inductive Series : Type :=
  | Int64Series (vs : list Z)          (* within the int64 range *)
  | Float64Series (vs : list float64)
  | ObjectSeries (vs : list PyObject).

Definition is_object (s : Series) : bool :=
  match s with ObjectSeries _ => true | _ => false end.

(** The elements as Python objects ([astype(object)], iteration). *)
Definition values (s : Series) : list PyObject :=
  match s with
  | Int64Series vs => PyInt <$> vs
  | Float64Series vs => PyFloat <$> vs
  | ObjectSeries vs => vs
  end.

(** The elements of a numeric column as doubles (not used on [object]
    columns). *)
Definition to_float64 (s : Series) : list float64 :=
  match s with
  | Int64Series vs => F64.of_Z <$> vs
  | Float64Series vs => vs
  | ObjectSeries _ => []
  end.

(** Boolean-mask selection on a list: keep the positions where the mask
    is [True]. *)
Fixpoint select {A} (mask : list bool) (l : list A) : list A :=
  match mask, l with
  | b :: mask', x :: l' => if b then x :: select mask' l' else select mask' l'
  | _, _ => []
  end.

(** [s[mask]]: the dtype is kept. *)
Definition Series_getitem_mask (s : Series) (mask : list bool) : Series :=
  match s with
  | Int64Series vs => Int64Series (select mask vs)
  | Float64Series vs => Float64Series (select mask vs)
  | ObjectSeries vs => ObjectSeries (select mask vs)
  end.

(** [s.isna()] *)
Definition Series_isna (s : Series) : list bool := isna <$> values s.

(** [s.apply(f)] for a Python function [f]: element by element. *)
Definition Series_apply {B} (f : PyObject -> B) (s : Series) : list B :=
  f <$> values s.

(** [m1 & m2] on boolean Series of one index. *)
Definition mask_and (m1 m2 : list bool) : list bool := zip_with andb m1 m2.

(** The Series that a division returns, given by its doubles: it has
    [float64] dtype, or [object] dtype (then it holds Python floats). *)
Record FloatSeries : Type := mkFloatSeries {
  fs_object : bool;
  fs_values : list float64
}.

(** [a / b] on two Series of one frame (same index, so the alignment is
    positional).  Numeric dtypes are divided as doubles, IEEE style, into
    a [float64] Series; as soon as one operand has [object] dtype the
    division is Python's [/] on each pair of objects, and the result is
    an [object] Series of Python floats. *)
Definition Series_truediv (a b : Series) : result FloatSeries :=
  if is_object a || is_object b then
    result_map (mkFloatSeries true)
      (result_mapM (fun p => py_truediv p.1 p.2) (zip (values a) (values b)))
  else
    Ok (mkFloatSeries false (zip_with F64.div (to_float64 a) (to_float64 b))).

(** *** NumPy's sum of a [float64] array

    [ndarray.sum] on a contiguous [float64] array is one call of the
    inner loop of [np.add.reduce], which adds NumPy's pairwise sum of
    the array to the initial value 0.0. *)

(** [((r0 + r1) + (r2 + r3)) + ((r4 + r5) + (r6 + r7))] *)
Definition sum8 (r0 r1 r2 r3 r4 r5 r6 r7 : float64) : float64 :=
  F64.add (F64.add (F64.add r0 r1) (F64.add r2 r3))
          (F64.add (F64.add r4 r5) (F64.add r6 r7)).

(** The unrolled loop over the blocks of 8 entries that follow the first
    block: [r[j] += a[i + j]] as long as a whole block is left; then the
    8 accumulators are added up, and the entries that are left (fewer
    than 8) are added one by one. *)
Fixpoint sum_unrolled (r0 r1 r2 r3 r4 r5 r6 r7 : float64) (xs : list float64)
  : float64 :=
  match xs with
  | x0 :: x1 :: x2 :: x3 :: x4 :: x5 :: x6 :: x7 :: xs' =>
      sum_unrolled (F64.add r0 x0) (F64.add r1 x1) (F64.add r2 x2) (F64.add r3 x3)
                   (F64.add r4 x4) (F64.add r5 x5) (F64.add r6 x6) (F64.add r7 x7)
                   xs'
  | _ => foldl F64.add (sum8 r0 r1 r2 r3 r4 r5 r6 r7) xs
  end.

(** The sum of at most 128 entries.  Fewer than 8 entries are added one
    by one, starting from -0.0; otherwise the first 8 entries start 8
    accumulators. *)
Definition block_sum (xs : list float64) : float64 :=
  match xs with
  | x0 :: x1 :: x2 :: x3 :: x4 :: x5 :: x6 :: x7 :: xs' =>
      sum_unrolled x0 x1 x2 x3 x4 x5 x6 x7 xs'
  | _ => foldl F64.add F64.nzero xs
  end.

(** Pairwise summation: more than 128 entries are split in two parts, the
    first of [n / 2] entries rounded down to a multiple of 8, and the
    sums of the two parts are added.  The recursion is on [fuel]; the
    length of the array is fuel enough ([pairwise_sum_unfold]). *)
Fixpoint pairwise_sum_fuel (fuel : nat) (xs : list float64) : float64 :=
  let n := length xs in
  if (n <=? 128)%nat then block_sum xs
  else
    match fuel with
    | O => block_sum xs
    | S fuel' =>
        let n2 := (n / 2 - (n / 2) mod 8)%nat in
        F64.add (pairwise_sum_fuel fuel' (take n2 xs))
                (pairwise_sum_fuel fuel' (drop n2 xs))
    end.

Definition pairwise_sum (xs : list float64) : float64 :=
  pairwise_sum_fuel (length xs) xs.

(** [a.sum()] on a [float64] array. *)
Definition np_sum (xs : list float64) : float64 :=
  F64.add F64.zero (pairwise_sum xs).

(** [a.sum()] on an [object] array of Python floats: the reduction
    starts from the first entry and adds the others with Python's [+],
    from left to right.  (The sum of no entries is the integer 0.) *)
Definition object_sum (xs : list float64) : float64 :=
  match xs with
  | [] => F64.zero
  | x :: xs' => foldl F64.add x xs'
  end.

(** The sum of a Series of floats, by its dtype. *)
Definition float_sum (object_dtype : bool) (xs : list float64) : float64 :=
  if object_dtype then object_sum xs else np_sum xs.

(** *** The pandas mean *)

(** The number of entries that are not NaN. *)
Definition notna_count (xs : list float64) : nat :=
  length (List.filter (fun x => negb (F64.is_nan x)) xs).

(** The sum in which every NaN entry counts as 0. *)
Definition nansum (object_dtype : bool) (xs : list float64) : float64 :=
  float_sum object_dtype ((fun x => if F64.is_nan x then F64.zero else x) <$> xs).

(** [nanops.nanmean]: NaN entries are replaced by 0 in the sum and are
    not counted; the mean of no entries is NaN. *)
Definition nanmean (object_dtype : bool) (xs : list float64) : float64 :=
  let count := notna_count xs in
  let the_sum := nansum object_dtype xs in
  if (0 <? Z.of_nat count) then F64.div the_sum (F64.of_Z (Z.of_nat count))
  else F64.nan.

(** [np.mean(s)] on a Series of floats: NumPy hands over to [s.mean()],
    which skips NaN ([skipna=True]). *)
Definition np_mean (s : FloatSeries) : float64 :=
  nanmean (fs_object s) (fs_values s).

(* ===================================================================== *)
(** ** DataFrame *)
(* ===================================================================== *)

(** A frame: the row labels and the columns by name.  In a frame built by
    pandas every column has as many entries as the index ([wf_frame]
    below). *)
Record DataFrame : Type := mkDataFrame {
  index : list Z;
  columns : gmap string Series
}.

(** Row selection by a boolean mask, on the index and on every column. *)
Definition DataFrame_select (df : DataFrame) (mask : list bool) : DataFrame :=
  {| index := select mask (index df);
     columns := (fun s => Series_getitem_mask s mask) <$> columns df |}.

(** [df.empty]: one of the two axes has length 0. *)
Definition DataFrame_empty (df : DataFrame) : bool :=
  (Z.of_nat (length (index df)) =? 0) || (Z.of_nat (size (columns df)) =? 0).

(* ===================================================================== *)
(** ** The store of frames and the [Py] monad *)
(* ===================================================================== *)

(** Frames are Python objects handled by reference: the caller and the
    function share the frame that is passed in.  The store maps
    references to frames; a computation threads the store and either
    returns a value or raises. *)
Definition ref : Type := positive.
Definition store : Type := gmap positive DataFrame.

Definition Py (A : Type) : Type := store -> result A * store.

Definition Py_ret {A} (a : A) : Py A := fun σ => (Ok a, σ).

Definition Py_bind {A B} (m : Py A) (k : A -> Py B) : Py B :=
  fun σ =>
    match m σ with
    | (Ok a, σ') => k a σ'
    | (Raise e, σ') => (Raise e, σ')
    end.

Definition raise {A} (e : exn) : Py A := fun σ => (Raise e, σ).

Definition lift {A} (r : result A) : Py A := fun σ => (r, σ).

#[global] Instance Py_mret : MRet Py := @Py_ret.
#[global] Instance Py_mbind : MBind Py := fun A B k m => Py_bind m k.

(** Reading the frame behind a reference.  A reference that denotes no
    frame has none of the attributes the function uses. *)
Definition deref (r : ref) : Py DataFrame :=
  fun σ =>
    match σ !! r with
    | Some df => (Ok df, σ)
    | None => (Raise AttributeError, σ)
    end.

(** A new frame object. *)
Definition new_frame (df : DataFrame) : Py ref :=
  fun σ => let r := fresh (dom σ) in (Ok r, <[r := df]> σ).

(** [name in r.columns] *)
Definition columns_contains (r : ref) (name : string) : Py bool :=
  df ← deref r;
  mret (bool_decide (is_Some (columns df !! name))).

(** [r[name]] *)
Definition getitem (r : ref) (name : string) : Py Series :=
  df ← deref r;
  match columns df !! name with
  | Some s => mret s
  | None => raise (KeyError name)
  end.

(** The rows that [dropna(subset=...)] keeps: no missing value in any of
    the columns of [subset]. *)
Fixpoint notna_mask (n : nat) (cols : list Series) : list bool :=
  match cols with
  | [] => replicate n true
  | s :: cols' => mask_and (negb <$> Series_isna s) (notna_mask n cols')
  end.

(** [r.dropna(subset=subset)]: a new frame ([inplace] is [False]). *)
Definition dropna (r : ref) (subset : list string) : Py ref :=
  df ← deref r;
  cols ← mapM (getitem r) subset;
  new_frame (DataFrame_select df (notna_mask (length (index df)) cols)).

(** [r[mask]] with a boolean Series: a new frame. *)
Definition getitem_mask (r : ref) (mask : list bool) : Py ref :=
  df ← deref r;
  new_frame (DataFrame_select df mask).

(** [r.empty] *)
Definition empty (r : ref) : Py bool :=
  df ← deref r;
  mret (DataFrame_empty df).

(* ===================================================================== *)
(** ** The function *)
(* ===================================================================== *)

Definition msg_currency : string := "Currency codes must be strings.".
Definition msg_columns : string :=
  "DataFrame must contain 'Price_A' and 'Price_B' columns.".
Definition msg_no_data : string :=
  "DataFrame must contain valid numeric price data.".

(** [calculate_ppp(currency_a, currency_b, price_data)].  The local name
    [price_data] is rebound twice; the three bindings are [price_data],
    [price_data1] and [price_data2]. *)
Definition calculate_ppp (currency_a currency_b : PyObject) (price_data : ref)
  : Py float64 :=
  (* Validate inputs *)
  if negb (isinstance_str currency_a) || negb (isinstance_str currency_b)
  then raise (ValueError msg_currency)
  else
    has_a ← columns_contains price_data "Price_A";
    has_b ← columns_contains price_data "Price_B";
    if negb has_a || negb has_b
    then raise (ValueError msg_columns)
    else
      (* Drop rows with missing or non-numeric data *)
      price_data1 ← dropna price_data ["Price_A"; "Price_B"];
      col_a ← getitem price_data1 "Price_A";
      col_b ← getitem price_data1 "Price_B";
      price_data2 ←
        getitem_mask price_data1
          (mask_and (Series_apply isreal col_a) (Series_apply isreal col_b));
      is_empty ← empty price_data2;
      if (is_empty : bool)
      then raise (ValueError msg_no_data)
      else
        (* Calculate the price ratios *)
        col_a ← getitem price_data2 "Price_A";
        col_b ← getitem price_data2 "Price_B";
        price_ratios ← lift (Series_truediv col_a col_b);
        (* Compute the average price ratio *)
        let average_price_ratio := np_mean price_ratios in
        (* Return the PPP exchange rate *)
        mret average_price_ratio.

(* ===================================================================== *)
(** ** The row-level vocabulary of the specification *)
(* ===================================================================== *)

(** A frame as pandas builds it: every column is as long as the index. *)
Definition Series_len (s : Series) : nat := length (values s).

Definition wf_frame (df : DataFrame) : Prop :=
  map_Forall (fun _ s => Series_len s = length (index df)) (columns df).

(** A row of the price table: the cells of [Price_A] and [Price_B]. *)
Definition row : Type := PyObject * PyObject.

Definition rows (price_a price_b : Series) : list row :=
  zip (values price_a) (values price_b).

(** A cell is present when it is neither null nor NaN. *)
Definition present (c : PyObject) : bool :=
  match c with
  | PyNone => false
  | PyFloat x => negb (F64.is_nan x)
  | PyStr _ | PyInt _ => true
  end.

(** A cell is of numeric type when it is an integer or a float. *)
Definition numeric (c : PyObject) : bool :=
  match c with
  | PyInt _ | PyFloat _ => true
  | PyNone | PyStr _ => false
  end.

(** A valid row: both price fields are present and of numeric type. *)
Definition valid_row (rw : row) : bool :=
  (present rw.1 && numeric rw.1) && (present rw.2 && numeric rw.2).

Definition valid_rows (price_a price_b : Series) : list row :=
  List.filter valid_row (rows price_a price_b).

(** The number behind a numeric cell of an [int64] or [float64] column. *)
Definition cell_double (c : PyObject) : float64 :=
  match c with
  | PyInt n => F64.of_Z n
  | PyFloat x => x
  | PyNone | PyStr _ => F64.nan
  end.

(** The ratio [price_a / price_b] of a row, as the dtypes of the two
    columns make pandas compute it: Python's [/] when a column has
    [object] dtype, the IEEE quotient of the two doubles otherwise. *)
Definition ratio (object_dtype : bool) (rw : row) : result float64 :=
  if object_dtype then py_truediv rw.1 rw.2
  else Ok (F64.div (cell_double rw.1) (cell_double rw.2)).

Definition ratios (price_a price_b : Series) (rws : list row)
  : result (list float64) :=
  result_mapM (ratio (is_object price_a || is_object price_b)) rws.


(** What the function makes of the rows that survive the filters: an
    error when there is none, the pandas mean of their ratios otherwise. *)
Definition ppp_of_rows (object_dtype : bool) (rws : list row) : result float64 :=
  match rws with
  | [] => Raise (ValueError msg_no_data)
  | _ :: _ => result_map (nanmean object_dtype) (result_mapM (ratio object_dtype) rws)
  end.


(** A computation that leaves every frame of the store as it is; it may
    add frames. *)
Definition preserves_store {A} (m : Py A) : Prop :=
  forall σ : store, σ ⊆ (m σ).2.

(* ===================================================================== *)
(** ** Concrete tables *)
(* ===================================================================== *)

(** The tables of the repository's unit tests. *)
Module Tests.

Definition goods : Series :=
  ObjectSeries [PyStr "Item 1"; PyStr "Item 2"; PyStr "Item 3"].

Definition frame (a b : Series) : DataFrame :=
  {| index := [0; 1; 2];
     columns := {[ "Goods_Services" := goods; "Price_A" := a; "Price_B" := b ]} |}.

Definition price_data : ref := 1%positive.

Definition run (df : DataFrame) : result float64 :=
  (calculate_ppp (PyStr "USD") (PyStr "EUR") price_data {[ price_data := df ]}).1.

Definition valid_data : DataFrame :=
  frame (Int64Series [100; 200; 150]) (Int64Series [10; 20; 15]).

Definition missing_prices : DataFrame :=
  frame (Float64Series [F64.of_Z 100; F64.nan; F64.of_Z 150])
        (Int64Series [10; 20; 15]).

Definition non_numeric_prices : DataFrame :=
  frame (ObjectSeries [PyInt 100; PyStr "a"; PyInt 150])
        (Int64Series [10; 20; 15]).

Definition empty_dataframe : DataFrame :=
  {| index := [];
     columns := {[ "Goods_Services" := ObjectSeries [];
                   "Price_A" := ObjectSeries [];
                   "Price_B" := ObjectSeries [] ]} |}.

End Tests.

(** Further tables, used below to probe the corners of the function. *)
Module Tables.

Definition prices (idx : list Z) (a b : Series) : DataFrame :=
  {| index := idx; columns := {[ "Price_A" := a; "Price_B" := b ]} |}.

(** A row [0, 0] next to a row [10, 1]. *)
Definition zero_over_zero : DataFrame :=
  prices [0; 1] (Int64Series [0; 10]) (Int64Series [0; 1]).

(** One row, with a zero price in currency B. *)
Definition zero_price_b : DataFrame :=
  prices [0] (Int64Series [1]) (Int64Series [0]).

(** A zero price in currency B in a table whose [Price_A] column also
    holds a string, as in [test_non_numeric_prices]. *)
Definition zero_price_b_object : DataFrame :=
  prices [0; 1] (ObjectSeries [PyInt 1; PyStr "a"]) (Int64Series [0; 2]).


(** Every row has a missing or a non-numeric price. *)
Definition all_invalid : DataFrame :=
  prices [0; 1; 2]
    (ObjectSeries [PyNone; PyStr "a"; PyInt 5])
    (ObjectSeries [PyInt 1; PyInt 2; PyFloat F64.nan]).

(** Only the item column. *)
Definition no_price_columns : DataFrame :=
  {| index := [0; 1; 2]; columns := {[ "Goods_Services" := Tests.goods ]} |}.





(** Ten items that cost 1 in currency A and 10 in currency B. *)
Definition ten_tenths : DataFrame :=
  prices [0; 1; 2; 3; 4; 5; 6; 7; 8; 9]
         (Int64Series (replicate 10 1)) (Int64Series (replicate 10 10)).

End Tables.

(* ===================================================================== *)
(** ** Signs, zero prices, 64-bit integers and normal forms *)
(* ===================================================================== *)

(** Not a negative number and not [-0.0]; NaN has no sign. *)
Definition not_negative (x : float64) : Prop :=
  match x with
  | S754_zero s | S754_infinity s | S754_finite s _ _ => s = false
  | S754_nan => True
  end.

(** A price that is not negative: an integer from 0 on, or a float that
    is [+0.0], a positive number or plus infinity. *)
Definition nonneg_price (c : PyObject) : bool :=
  match c with
  | PyInt n => 0 <=? n
  | PyFloat (S754_zero false) => true
  | PyFloat (S754_finite false _ _) => true
  | PyFloat (S754_infinity false) => true
  | _ => false
  end.

(** A price above zero. *)
Definition positive_price (c : PyObject) : bool :=
  match c with
  | PyInt n => 0 <? n
  | PyFloat (S754_finite false _ _) => true
  | PyFloat (S754_infinity false) => true
  | _ => false
  end.

(** A price of zero: the integer 0 or a float zero. *)
Definition zero_price (c : PyObject) : bool :=
  match c with
  | PyInt n => n =? 0
  | PyFloat x => F64.is_zero x
  | _ => false
  end.

(** A float that is a number (not NaN) and is not negative. *)
Definition plus_number (x : float64) : Prop :=
  not_negative x /\ F64.is_nan x = false.

(** A cell whose integer, if it is one, fits 64 bits. *)
Definition fits_int64 (c : PyObject) : bool :=
  match c with
  | PyInt n => (- 2 ^ 63 <=? n) && (n <? 2 ^ 63)
  | _ => true
  end.

(** A finite number in the normal form of the binary64 format: the
    mantissa has as many digits as the exponent allows, and the exponent
    does not exceed the largest one. *)
Definition canonical (x : float64) : Prop :=
  match x with
  | S754_finite _ m e =>
      fexp F64.prec F64.emax (Zpos (digits2_pos m) + e) = e /\ e <= F64.emax - F64.prec
  | _ => True
  end.

(** The doubles of the two cells of a row. *)
Definition row_doubles (rw : row) : float64 * float64 :=
  (cell_double rw.1, cell_double rw.2).

Definition both_numbers (p : float64 * float64) : bool :=
  negb (F64.is_nan p.1) && negb (F64.is_nan p.2).

(** Further tables. *)
Module MoreTables.

(** The prices of [test_valid_data] without the item column and under
    other row labels. *)
Definition valid_data_bare : DataFrame :=
  Tables.prices [7; 8; 9] (Int64Series [100; 200; 150]) (Int64Series [10; 20; 15]).

(** The prices of [test_valid_data] as floats. *)
Definition valid_data_float64 : DataFrame :=
  Tables.prices [0; 1; 2]
    (Float64Series [F64.of_Z 100; F64.of_Z 200; F64.of_Z 150])
    (Float64Series [F64.of_Z 10; F64.of_Z 20; F64.of_Z 15]).

(** Two items that are free in both countries. *)
Definition all_free : DataFrame :=
  Tables.prices [0; 1] (Int64Series [0; 0]) (Float64Series [F64.zero; F64.zero]).

(** One valid row, [3 / 4], after a row without a number. *)
Definition one_valid_row : DataFrame :=
  Tables.prices [0; 1] (ObjectSeries [PyStr "n/a"; PyInt 3]) (Int64Series [1; 4]).

(** [test_non_numeric_prices] with its invalid row dropped. *)
Definition non_numeric_prices_cleaned : DataFrame :=
  DataFrame_select Tests.non_numeric_prices [true; false; true].

End MoreTables.

(* ===================================================================== *)
(** ** Binary digits *)
(* ===================================================================== *)

Section digits.

Lemma digits2_pos_bounds (p : positive) :
  2 ^ (Zpos (digits2_pos p) - 1) <= Zpos p < 2 ^ Zpos (digits2_pos p).
Proof.
  induction p as [p IH|p IH|]; cbn [digits2_pos]; [| |cbn; lia].
  - rewrite Pos2Z.inj_succ, (Pos2Z.inj_xI p).
    replace (Z.succ (Zpos (digits2_pos p)) - 1) with (Z.succ (Zpos (digits2_pos p) - 1)) by lia.
    rewrite !Z.pow_succ_r by lia.
    destruct IH as [IH1 IH2]. revert IH1 IH2.
    generalize (2 ^ (Zpos (digits2_pos p) - 1)) (2 ^ Zpos (digits2_pos p)). lia.
  - rewrite Pos2Z.inj_succ, (Pos2Z.inj_xO p).
    replace (Z.succ (Zpos (digits2_pos p)) - 1) with (Z.succ (Zpos (digits2_pos p) - 1)) by lia.
    rewrite !Z.pow_succ_r by lia.
    destruct IH as [IH1 IH2]. revert IH1 IH2.
    generalize (2 ^ (Zpos (digits2_pos p) - 1)) (2 ^ Zpos (digits2_pos p)). lia.
Qed.

Lemma Zdigits2_nonneg (z : Z) : 0 <= Zdigits2 z.
Proof. destruct z; cbn; lia. Qed.

Lemma Zdigits2_pos (z : Z) : 0 < z -> 0 < Zdigits2 z.
Proof. destruct z; cbn; lia. Qed.

Lemma Zdigits2_bounds (z : Z) :
  0 < z -> 2 ^ (Zdigits2 z - 1) <= z < 2 ^ Zdigits2 z.
Proof. destruct z as [|p|p]; try lia. intros _. apply digits2_pos_bounds. Qed.

Lemma Zdigits2_le_pow (z k : Z) : 0 <= z -> 0 <= k -> z < 2 ^ k -> Zdigits2 z <= k.
Proof.
  intros Hz Hk Hlt.
  destruct (Z.eq_dec z 0) as [->|Hnz]; [cbn; lia|].
  pose proof (Zdigits2_bounds z ltac:(lia)) as [Hlo _].
  destruct (Z_le_gt_dec (Zdigits2 z) k) as [|Hgt]; [done|].
  assert (2 ^ k <= 2 ^ (Zdigits2 z - 1)) by (apply Z.pow_le_mono_r; lia).
  lia.
Qed.

Lemma Zdigits2_ge_pow (z k : Z) : 0 <= k -> 2 ^ k <= z -> k + 1 <= Zdigits2 z.
Proof.
  intros Hk Hle.
  assert (0 < 2 ^ k) by (apply Z.pow_pos_nonneg; lia).
  pose proof (Zdigits2_bounds z ltac:(lia)) as [_ Hhi].
  destruct (Z_le_gt_dec (k + 1) (Zdigits2 z)) as [|Hgt]; [done|].
  assert (2 ^ Zdigits2 z <= 2 ^ k)
    by (apply Z.pow_le_mono_r; [lia|]; pose proof (Zdigits2_nonneg z); lia).
  lia.
Qed.

Lemma Zdigits2_mono (a b : Z) : 0 <= a <= b -> Zdigits2 a <= Zdigits2 b.
Proof.
  intros [Ha Hab].
  destruct (Z.eq_dec b 0) as [->|Hb]; [by replace a with 0 by lia|].
  apply Zdigits2_le_pow; [lia|apply Zdigits2_nonneg|].
  pose proof (Zdigits2_bounds b ltac:(lia)). lia.
Qed.

Lemma Zdigits2_succ (m : Z) : 0 <= m -> Zdigits2 (m + 1) <= Zdigits2 m + 1.
Proof.
  intros Hm. pose proof (Zdigits2_nonneg m).
  apply Zdigits2_le_pow; [lia|lia|].
  rewrite Z.pow_add_r by lia.
  destruct (Z.eq_dec m 0) as [->|Hnz]; [cbn; lia|].
  pose proof (Zdigits2_bounds m ltac:(lia)). lia.
Qed.

Lemma Zdigits2_div2 (m : Z) : 0 <= m -> Zdigits2 (Z.div2 m) = Z.max 0 (Zdigits2 m - 1).
Proof.
  destruct m as [|[p|p|]|p]; intros Hm; try lia; cbn [Z.div2 Zdigits2 digits2_pos Pos.div2];
    rewrite ?Pos2Z.inj_succ; lia.
Qed.

End digits.

(* ===================================================================== *)
(** ** Rounding, division and addition in a binary format *)
(* ===================================================================== *)

Section rounding.
Variables prec emax : Z.
Hypothesis Hprec : 0 < prec.
Hypothesis Hemax : prec < emax.


Lemma fexp_unfold (e : Z) : fexp prec emax e = Z.max (e - prec) (3 - emax - prec).
Proof. reflexivity. Qed.

Lemma shr_1_m (mrs : shr_record) :
  0 <= shr_m mrs -> shr_m (shr_1 mrs) = Z.div2 (shr_m mrs).
Proof. destruct mrs as [[|[p|p|]|p] r s]; cbn; intros; try reflexivity; lia. Qed.

(** Shifting right drops that many binary digits. *)
Lemma iter_shr_1_digits (p : positive) (mrs : shr_record) :
  0 <= shr_m mrs ->
  0 <= shr_m (SpecFloat.iter_pos shr_1 p mrs) /\
  Zdigits2 (shr_m (SpecFloat.iter_pos shr_1 p mrs)) = Z.max 0 (Zdigits2 (shr_m mrs) - Zpos p).
Proof.
  assert (Hone : forall mrs, 0 <= shr_m mrs ->
            0 <= shr_m (shr_1 mrs) /\
            Zdigits2 (shr_m (shr_1 mrs)) = Z.max 0 (Zdigits2 (shr_m mrs) - 1)).
  { intros mrs' Hm. rewrite shr_1_m by done. split; [|by apply Zdigits2_div2].
    destruct (shr_m mrs') as [|[q|q|]|q]; cbn; lia. }
  revert mrs. induction p as [p IH|p IH|]; intros mrs Hm; cbn [SpecFloat.iter_pos].
  - destruct (Hone mrs Hm) as [H1 E1].
    destruct (IH _ H1) as [H2 E2]. destruct (IH _ H2) as [H3 E3].
    split; [done|]. rewrite E3, E2, E1, (Pos2Z.inj_xI p). lia.
  - destruct (IH _ Hm) as [H2 E2]. destruct (IH _ H2) as [H3 E3].
    split; [done|]. rewrite E3, E2, (Pos2Z.inj_xO p). lia.
  - apply Hone, Hm.
Qed.

Lemma shr_record_of_loc_m (m : Z) (l : location) : shr_m (shr_record_of_loc m l) = m.
Proof. by destruct l as [|[]]. Qed.

(** [shr_fexp]: the exponent is raised to [fexp] of the magnitude when
    it is below, and the mantissa loses as many digits. *)
Lemma shr_fexp_spec (m e : Z) (l : location) :
  0 <= m ->
  exists mrs e1,
    shr_fexp prec emax m e l = (mrs, e1) /\
    0 <= shr_m mrs /\
    e1 = Z.max e (fexp prec emax (Zdigits2 m + e)) /\
    Zdigits2 (shr_m mrs) = Z.max 0 (Zdigits2 m - (e1 - e)).
Proof.
  intros Hm. unfold shr_fexp, shr.
  pose proof (shr_record_of_loc_m m l) as Hrec.
  destruct (fexp prec emax (Zdigits2 m + e) - e) as [|n|n] eqn:Hn.
  - eexists _, _. split; [reflexivity|]. rewrite Hrec.
    pose proof (Zdigits2_nonneg m). repeat split; lia.
  - destruct (iter_shr_1_digits n (shr_record_of_loc m l)) as [H1 E1];
      [by rewrite Hrec|].
    eexists _, _. split; [reflexivity|]. rewrite E1, Hrec.
    repeat split; [done|lia|lia].
  - eexists _, _. split; [reflexivity|]. rewrite Hrec.
    pose proof (Zdigits2_nonneg m). repeat split; lia.
Qed.

Lemma round_nearest_even_bounds (m : Z) (l : location) :
  m <= round_nearest_even m l <= m + 1.
Proof. destruct l as [|[]]; cbn; try destruct (Z.even m); lia. Qed.

(** The shape of a rounding: two exponent adjustments around the
    rounding of the mantissa. *)
Lemma binary_round_aux_spec (sx : bool) (m e : Z) (l : location) :
  0 <= m ->
  exists m1 e1 m2 m3 e3,
    e1 = Z.max e (fexp prec emax (Zdigits2 m + e)) /\
    0 <= m1 /\ Zdigits2 m1 = Z.max 0 (Zdigits2 m - (e1 - e)) /\
    m1 <= m2 <= m1 + 1 /\
    e3 = Z.max e1 (fexp prec emax (Zdigits2 m2 + e1)) /\
    0 <= m3 /\ Zdigits2 m3 = Z.max 0 (Zdigits2 m2 - (e3 - e1)) /\
    binary_round_aux prec emax sx m e l =
      match m3 with
      | Z0 => S754_zero sx
      | Zpos p => if e3 <=? emax - prec then S754_finite sx p e3 else S754_infinity sx
      | Zneg _ => S754_nan
      end.
Proof.
  intros Hm. unfold binary_round_aux.
  destruct (shr_fexp_spec m e l Hm) as (mrs1 & e1 & -> & Hm1 & He1 & Hd1).
  pose proof (round_nearest_even_bounds (shr_m mrs1) (loc_of_shr_record mrs1)) as Hrne.
  set (m2 := round_nearest_even _ _) in *.
  destruct (shr_fexp_spec m2 e1 loc_Exact ltac:(lia)) as (mrs3 & e3 & -> & Hm3 & He3 & Hd3).
  exists (shr_m mrs1), e1, m2, (shr_m mrs3), e3. repeat split; try done; lia.
Qed.

(** What a rounding returns is zero, an infinity, or a finite number
    with at most [prec] digits and an exponent in range. *)
Lemma binary_round_aux_bounded (sx : bool) (m e : Z) (l : location) :
  0 <= m ->
  match binary_round_aux prec emax sx m e l with
  | S754_finite _ p e' => Zpos (digits2_pos p) <= prec /\ e' <= emax - prec
  | S754_nan => False
  | _ => True
  end.
Proof.
  intros Hm.
  destruct (binary_round_aux_spec sx m e l Hm)
    as (m1 & e1 & m2 & m3 & e3 & He1 & Hm1 & Hd1 & Hm2 & He3 & Hm3 & Hd3 & ->).
  destruct m3 as [|p|p]; [done| |lia].
  destruct (Z.leb_spec e3 (emax - prec)); [|done].
  split; [|done]. cbn [Zdigits2] in Hd3.
  rewrite fexp_unfold in He3. lia.
Qed.

(** No overflow when the magnitude leaves room for a carry. *)
Lemma binary_round_aux_finite (sx : bool) (m e : Z) (l : location) :
  0 <= m ->
  e <= emax - prec ->
  Zdigits2 m + e + 1 <= emax ->
  match binary_round_aux prec emax sx m e l with
  | S754_zero _ | S754_finite _ _ _ => True
  | _ => False
  end.
Proof.
  intros Hm He Htop.
  destruct (binary_round_aux_spec sx m e l Hm)
    as (m1 & e1 & m2 & m3 & e3 & He1 & Hm1 & Hd1 & Hm2 & He3 & Hm3 & Hd3 & ->).
  destruct m3 as [|p|p]; [done| |lia].
  assert (Zdigits2 m2 <= Zdigits2 m1 + 1) as Hd2.
  { etrans; [apply (Zdigits2_mono m2 (m1 + 1)); lia|]. by apply Zdigits2_succ. }
  rewrite !fexp_unfold in *.
  destruct (Z.leb_spec e3 (emax - prec)); [done|]. lia.
Qed.

(** A rounding does not lower the magnitude of a number above the
    underflow threshold. *)
Lemma binary_round_aux_lower (sx : bool) (m e : Z) (l : location) :
  0 < m ->
  3 - emax - prec < Zdigits2 m + e ->
  match binary_round_aux prec emax sx m e l with
  | S754_finite s p e' => s = sx /\ Zdigits2 m + e <= Zpos (digits2_pos p) + e'
  | S754_infinity s => s = sx
  | _ => False
  end.
Proof.
  intros Hm Htop.
  destruct (binary_round_aux_spec sx m e l ltac:(lia))
    as (m1 & e1 & m2 & m3 & e3 & He1 & Hm1 & Hd1 & Hm2 & He3 & Hm3 & Hd3 & ->).
  pose proof (Zdigits2_pos m Hm) as Hdm.
  assert (Zdigits2 m1 <= Zdigits2 m2) as Hd2 by (apply Zdigits2_mono; lia).
  rewrite !fexp_unfold in *.
  destruct m3 as [|p|p]; [cbn in Hd3; lia| |lia].
  cbn [Zdigits2] in Hd3.
  destruct (Z.leb_spec e3 (emax - prec)); [|done].
  split; [done|]. lia.
Qed.



(** The quotient mantissa of the division: its sign, exponent and
    magnitude. *)
Lemma SFdiv_core_binary_bounds (mx : positive) (ex : Z) (my : positive) (ey : Z) :
  let T := Zpos (digits2_pos mx) + ex - (Zpos (digits2_pos my) + ey) in
  exists q e' l,
    SFdiv_core_binary prec emax (Zpos mx) ex (Zpos my) ey = (q, e', l) /\
    0 <= q /\ e' <= fexp prec emax T /\ Zdigits2 q + e' <= Z.max e' (T + 1).
Proof.
  intros T. unfold SFdiv_core_binary. cbn [Zdigits2]. fold T.
  set (d1 := Zpos (digits2_pos mx)) in *. set (d2 := Zpos (digits2_pos my)) in *.
  set (e' := Z.min (fexp prec emax T) (ex - ey)).
  set (s := ex - ey - e').
  assert (0 <= s) as Hs by (subst s e'; lia).
  set (m' := match s with Zpos _ => Z.shiftl (Zpos mx) s | Z0 => Zpos mx | Zneg _ => 0 end).
  assert (m' = Zpos mx * 2 ^ s) as Hm'.
  { subst m'. destruct s as [|k|k] eqn:Hk; [lia| |lia].
    by rewrite Z.shiftl_mul_pow2. }
  pose proof (Z_div_mod m' (Zpos my) ltac:(lia)) as Hdiv.
  destruct (Z.div_eucl m' (Zpos my)) as [q r]. destruct Hdiv as [Hqr Hr].
  exists q, e', (new_location (Zpos my) r). split; [done|].
  pose proof (digits2_pos_bounds mx) as [_ Hmx]. fold d1 in Hmx.
  pose proof (digits2_pos_bounds my) as [Hmy _]. fold d2 in Hmy.
  assert (0 < 2 ^ s) as Hps by (apply Z.pow_pos_nonneg; lia).
  assert (0 <= m') as Hm'0 by nia.
  assert (0 <= q) as Hq by nia.
  assert (m' < 2 ^ (d1 + s)) as Hm'lt.
  { rewrite Hm', Z.pow_add_r by lia. nia. }
  split; [done|]. split; [subst e'; lia|].
  assert (Zdigits2 q <= Z.max 0 (d1 + s - d2 + 1)) as Hdq.
  { apply Zdigits2_le_pow; [done|lia|].
    destruct (Z_le_gt_dec 0 (d1 + s - d2 + 1)) as [Hk|Hk].
    - rewrite Z.max_r by lia.
      assert (2 ^ (d1 + s) = 2 ^ (d1 + s - d2 + 1) * 2 ^ (d2 - 1)) as Hsplit.
      { rewrite <- Z.pow_add_r by lia. f_equal. lia. }
      assert (0 < 2 ^ (d2 - 1)) by (apply Z.pow_pos_nonneg; lia).
      nia.
    - rewrite Z.max_l by lia. change (2 ^ 0) with 1.
      assert (2 ^ (d1 + s) <= 2 ^ (d2 - 1)) by (apply Z.pow_le_mono_r; lia).
      nia. }
  subst s T. lia.
Qed.

(** The division of two finite numbers does not overflow when the
    magnitudes leave two binary orders of room. *)
Lemma SFdiv_finite_finite (sx : bool) (mx : positive) (ex : Z)
    (sy : bool) (my : positive) (ey : Z) :
  Zpos (digits2_pos mx) + ex - (Zpos (digits2_pos my) + ey) + 2 <= emax ->
  match SFdiv prec emax (S754_finite sx mx ex) (S754_finite sy my ey) with
  | S754_zero _ | S754_finite _ _ _ => True
  | _ => False
  end.
Proof.
  intros HT. cbn [SFdiv].
  destruct (SFdiv_core_binary_bounds mx ex my ey) as (q & e' & l & -> & Hq & He' & Hdq).
  rewrite fexp_unfold in He'.
  apply binary_round_aux_finite; lia.
Qed.

(** Every quotient is in range. *)
Lemma SFdiv_bounded (x y : spec_float) :
  match SFdiv prec emax x y with
  | S754_finite _ p e => Zpos (digits2_pos p) <= prec /\ e <= emax - prec
  | _ => True
  end.
Proof.
  destruct x as [sx|sx| |sx mx ex], y as [sy|sy| |sy my ey]; try done.
  cbn [SFdiv].
  destruct (SFdiv_core_binary_bounds mx ex my ey) as (q & e' & l & -> & Hq & _).
  pose proof (binary_round_aux_bounded (xorb sx sy) q e' l Hq) as Hb.
  by destruct (binary_round_aux _ _ _ _ _ _).
Qed.

Lemma binary_round_bounded (sx : bool) (mx : positive) (ex : Z) :
  match binary_round prec emax sx mx ex with
  | S754_finite _ p e => Zpos (digits2_pos p) <= prec /\ e <= emax - prec
  | _ => True
  end.
Proof.
  unfold binary_round. destruct (shl_align _ _ _) as [mz ez].
  pose proof (binary_round_aux_bounded sx (Zpos mz) ez loc_Exact ltac:(lia)) as Hb.
  by destruct (binary_round_aux _ _ _ _ _ _).
Qed.

(** Every sum of two numbers in range is in range. *)
Lemma SFadd_bounded (x y : spec_float) :
  let in_range z :=
    match z with
    | S754_finite _ p e => Zpos (digits2_pos p) <= prec /\ e <= emax - prec
    | _ => True
    end in
  in_range x -> in_range y -> in_range (SFadd prec emax x y).
Proof.
  intros in_range Hx Hy.
  destruct x as [sx|sx| |sx mx ex], y as [sy|sy| |sy my ey]; try done;
    try (by destruct sx, sy).
  cbn [SFadd]. unfold binary_normalize.
  destruct (_ + _) as [|m|m]; [done| |]; apply binary_round_bounded.
Qed.

Lemma digits2_pos_iter_xO (mx d : positive) :
  Zpos (digits2_pos (Pos.iter xO mx d)) = Zpos (digits2_pos mx) + Zpos d.
Proof.
  induction d as [|d IH] using Pos.peano_ind.
  - cbn. lia.
  - rewrite Pos.iter_succ. cbn [digits2_pos]. lia.
Qed.

Lemma shl_align_magnitude (mx : positive) (ex ex' : Z) :
  Zpos (digits2_pos (shl_align mx ex ex').1) + (shl_align mx ex ex').2
  = Zpos (digits2_pos mx) + ex.
Proof.
  unfold shl_align. destruct (ex' - ex) as [|d|d] eqn:Hd; cbn [fst snd]; try done.
  rewrite digits2_pos_iter_xO. lia.
Qed.

(** The float of an integer from 2 on is an infinity or a finite
    positive number of magnitude at least 2. *)
Lemma binary_normalize_ge_2 (n : Z) :
  2 <= n ->
  match binary_normalize prec emax n 0 false with
  | S754_finite s p e => s = false /\ 2 <= Zpos (digits2_pos p) + e
  | S754_infinity s => s = false
  | _ => False
  end.
Proof.
  intros Hn. destruct n as [|p|p]; try lia.
  cbn [binary_normalize]. unfold binary_round.
  pose proof (shl_align_magnitude p 0 (fexp prec emax (Zpos (digits2_pos p) + 0))) as Hal.
  destruct (shl_align _ _ _) as [mz ez]. cbn [fst snd] in Hal.
  assert (2 <= Zpos (digits2_pos p)) as Hdp.
  { apply (Zdigits2_ge_pow (Zpos p) 1); lia. }
  pose proof (binary_round_aux_lower false (Zpos mz) ez loc_Exact ltac:(lia)) as Hlow.
  cbn [Zdigits2] in Hlow. specialize (Hlow ltac:(lia)).
  destruct (binary_round_aux _ _ _ _ _ _); try done.
  destruct Hlow as [-> Hlow]. split; [done|lia].
Qed.

End rounding.

(* ===================================================================== *)
(** ** Binary64: range and finiteness *)
(* ===================================================================== *)

Lemma F64_prec_pos : 0 < F64.prec.
Proof. reflexivity. Qed.

Lemma F64_prec_emax : F64.prec < F64.emax.
Proof. reflexivity. Qed.

Lemma F64_div_in_range (x y : float64) : F64.in_range (F64.div x y).
Proof. apply (SFdiv_bounded F64.prec F64.emax F64_prec_pos). Qed.

Lemma F64_add_in_range (x y : float64) :
  F64.in_range x -> F64.in_range y -> F64.in_range (F64.add x y).
Proof. apply (SFadd_bounded F64.prec F64.emax F64_prec_pos). Qed.

(* ===================================================================== *)
(** ** Sums *)
(* ===================================================================== *)

Lemma F64_add_nzero_l (x : float64) : F64.add F64.nzero x = x.
Proof. destruct x as [[]|[]| |[] m e]; reflexivity. Qed.

Section sum_closure.
Variables P Q : float64 -> Prop.
Hypothesis P_add : forall x y, P x -> P y -> P (F64.add x y).
Hypothesis Q_add_l : forall x y, Q x -> P y -> Q (F64.add x y).
Hypothesis Q_add_r : forall x y, P x -> Q y -> Q (F64.add x y).

Lemma foldl_add_closed (xs : list float64) (acc : float64) :
  P acc -> Forall P xs ->
  P (foldl F64.add acc xs) /\
  (Q acc \/ Exists Q xs -> Q (foldl F64.add acc xs)).
Proof.
  intros Hacc Hxs. revert acc Hacc.
  induction Hxs as [|x xs Hx _ IH]; intros acc Hacc; cbn [foldl].
  - split; [done|]. intros [HQ|HQ]; [done|inversion HQ].
  - destruct (IH (F64.add acc x) (P_add _ _ Hacc Hx)) as [IHP IHQ].
    split; [done|]. intros [HQ|HQ]; apply IHQ.
    + left. by apply Q_add_l.
    + apply Exists_cons in HQ as [HQ|HQ]; [left; by apply Q_add_r|by right].
Qed.

Lemma sum8_closed (r0 r1 r2 r3 r4 r5 r6 r7 : float64) :
  P r0 -> P r1 -> P r2 -> P r3 -> P r4 -> P r5 -> P r6 -> P r7 ->
  P (sum8 r0 r1 r2 r3 r4 r5 r6 r7) /\
  (Q r0 \/ Q r1 \/ Q r2 \/ Q r3 \/ Q r4 \/ Q r5 \/ Q r6 \/ Q r7 ->
   Q (sum8 r0 r1 r2 r3 r4 r5 r6 r7)).
Proof.
  intros H0 H1 H2 H3 H4 H5 H6 H7. unfold sum8.
  split; [auto 10|].
  intros [HQ|[HQ|[HQ|[HQ|[HQ|[HQ|[HQ|HQ]]]]]]]; auto 10.
Qed.

Lemma sum_unrolled_closed (xs : list float64) (r0 r1 r2 r3 r4 r5 r6 r7 : float64) :
  P r0 -> P r1 -> P r2 -> P r3 -> P r4 -> P r5 -> P r6 -> P r7 ->
  Forall P xs ->
  P (sum_unrolled r0 r1 r2 r3 r4 r5 r6 r7 xs) /\
  ((Q r0 \/ Q r1 \/ Q r2 \/ Q r3 \/ Q r4 \/ Q r5 \/ Q r6 \/ Q r7) \/ Exists Q xs ->
   Q (sum_unrolled r0 r1 r2 r3 r4 r5 r6 r7 xs)).
Proof.
  remember (length xs) as n eqn:Hn.
  revert xs Hn r0 r1 r2 r3 r4 r5 r6 r7.
  induction (lt_wf n) as [n _ IH]. intros xs -> r0 r1 r2 r3 r4 r5 r6 r7.
  intros H0 H1 H2 H3 H4 H5 H6 H7 Hxs.
  destruct (sum8_closed r0 r1 r2 r3 r4 r5 r6 r7) as [HP8 HQ8]; try done.
  assert (Hshort :
    P (foldl F64.add (sum8 r0 r1 r2 r3 r4 r5 r6 r7) xs) /\
    ((Q r0 \/ Q r1 \/ Q r2 \/ Q r3 \/ Q r4 \/ Q r5 \/ Q r6 \/ Q r7) \/ Exists Q xs ->
     Q (foldl F64.add (sum8 r0 r1 r2 r3 r4 r5 r6 r7) xs))).
  { destruct (foldl_add_closed xs _ HP8 Hxs) as [HP HQ].
    split; [done|]. intros [Hr|Hx]; apply HQ; [left; by apply HQ8|by right]. }
  destruct xs as [|x0 [|x1 [|x2 [|x3 [|x4 [|x5 [|x6 [|x7 xs']]]]]]]];
    try exact Hshort.
  clear Hshort HP8 HQ8. cbn [sum_unrolled].
  repeat (apply Forall_cons in Hxs as [? Hxs]).
  edestruct (IH (length xs')) as [IHP IHQ];
    [cbn [length]; lia|reflexivity| | | | | | | | |exact Hxs|];
    [eapply (P_add r0 x0)|eapply (P_add r1 x1)|eapply (P_add r2 x2)
    |eapply (P_add r3 x3)|eapply (P_add r4 x4)|eapply (P_add r5 x5)
    |eapply (P_add r6 x6)|eapply (P_add r7 x7)|]; try done.
  split; [exact IHP|].
  intros HQ. apply IHQ. rewrite !Exists_cons in HQ.
  destruct HQ as [[HQ|[HQ|[HQ|[HQ|[HQ|[HQ|[HQ|HQ]]]]]]]
                 |[HQ|[HQ|[HQ|[HQ|[HQ|[HQ|[HQ|[HQ|HQ]]]]]]]]]; auto 12.
Qed.

Lemma block_sum_closed (xs : list float64) :
  xs <> [] -> Forall P xs ->
  P (block_sum xs) /\ (Exists Q xs -> Q (block_sum xs)).
Proof.
  intros Hne Hxs.
  assert (Hshort :
    P (foldl F64.add F64.nzero xs) /\ (Exists Q xs -> Q (foldl F64.add F64.nzero xs))).
  { destruct xs as [|x xs]; [done|]. cbn [foldl]. rewrite F64_add_nzero_l.
    apply Forall_cons in Hxs as [Hx Hxs].
    destruct (foldl_add_closed xs x Hx Hxs) as [HP HQ].
    split; [done|]. intros HE. apply HQ.
    apply Exists_cons in HE as [?|?]; auto. }
  destruct xs as [|x0 [|x1 [|x2 [|x3 [|x4 [|x5 [|x6 [|x7 xs']]]]]]]];
    try exact Hshort.
  clear Hshort. unfold block_sum.
  repeat (apply Forall_cons in Hxs as [? Hxs]).
  destruct (sum_unrolled_closed xs' x0 x1 x2 x3 x4 x5 x6 x7) as [HP HQ]; try done.
  split; [done|]. intros HE. apply HQ. rewrite !Exists_cons in HE.
  tauto.
Qed.

Lemma pairwise_split (n : nat) :
  (128 < n)%nat ->
  let n2 := (n / 2 - (n / 2) mod 8)%nat in (0 < n2 < n)%nat.
Proof.
  intros Hn n2.
  assert (64 <= n / 2)%nat by (apply Nat.div_le_lower_bound; lia).
  assert ((n / 2) mod 8 < 8)%nat by (apply Nat.mod_upper_bound; lia).
  assert (n / 2 < n)%nat by (apply Nat.div_lt; lia).
  subst n2. lia.
Qed.

Lemma pairwise_sum_fuel_closed (fuel : nat) (xs : list float64) :
  xs <> [] -> Forall P xs ->
  P (pairwise_sum_fuel fuel xs) /\ (Exists Q xs -> Q (pairwise_sum_fuel fuel xs)).
Proof.
  revert xs. induction fuel as [|fuel IH]; intros xs Hne Hxs; cbn [pairwise_sum_fuel].
  - destruct (_ <=? _)%nat; by apply block_sum_closed.
  - destruct (Nat.leb_spec (length xs) 128) as [Hle|Hgt]; [by apply block_sum_closed|].
    pose proof (pairwise_split _ Hgt) as Hn2. cbv zeta in Hn2.
    set (n2 := (length xs / 2 - (length xs / 2) mod 8)%nat) in *. clearbody n2.
    destruct (IH (take n2 xs)) as [HP1 HQ1].
    { intros Hnil. apply (f_equal length) in Hnil.
      rewrite length_take in Hnil. change (length []) with 0%nat in Hnil. lia. }
    { by apply Forall_take. }
    destruct (IH (drop n2 xs)) as [HP2 HQ2].
    { intros Hnil. apply (f_equal length) in Hnil.
      rewrite length_drop in Hnil. change (length []) with 0%nat in Hnil. lia. }
    { by apply Forall_drop. }
    split; [by apply P_add|].
    intros HE. rewrite <- (take_drop n2 xs) in HE.
    apply Exists_app in HE as [HE|HE]; [apply Q_add_l|apply Q_add_r]; auto.
Qed.

Lemma np_sum_closed (xs : list float64) :
  P F64.zero -> Forall P xs ->
  P (np_sum xs) /\ (Exists Q xs -> Q (np_sum xs)).
Proof.
  intros Hz Hxs. destruct xs as [|x xs].
  - split; [exact Hz|]. intros HE. inversion HE.
  - destruct (pairwise_sum_fuel_closed (length (x :: xs)) (x :: xs)) as [HP HQ];
      [done|done|].
    unfold np_sum, pairwise_sum. split; [by apply P_add|].
    intros HE. apply Q_add_r; auto.
Qed.

Lemma object_sum_closed (xs : list float64) :
  P F64.zero -> Forall P xs ->
  P (object_sum xs) /\ (Exists Q xs -> Q (object_sum xs)).
Proof.
  intros Hz Hxs. destruct xs as [|x xs]; cbn [object_sum].
  - split; [exact Hz|]. intros HE. inversion HE.
  - apply Forall_cons in Hxs as [Hx Hxs].
    destruct (foldl_add_closed xs x Hx Hxs) as [HP HQ].
    split; [done|]. intros HE. apply HQ.
    apply Exists_cons in HE as [?|?]; auto.
Qed.

Lemma float_sum_closed (object_dtype : bool) (xs : list float64) :
  P F64.zero -> Forall P xs ->
  P (float_sum object_dtype xs) /\ (Exists Q xs -> Q (float_sum object_dtype xs)).
Proof.
  destruct object_dtype; [apply object_sum_closed|apply np_sum_closed].
Qed.

End sum_closure.

(** The length of the array is fuel enough for the pairwise sum. *)
Lemma pairwise_sum_fuel_enough (f1 f2 : nat) (xs : list float64) :
  (length xs <= f1)%nat -> (length xs <= f2)%nat ->
  pairwise_sum_fuel f1 xs = pairwise_sum_fuel f2 xs.
Proof.
  revert f2 xs. induction f1 as [|f1 IH]; intros f2 xs H1 H2.
  - destruct f2; cbn [pairwise_sum_fuel]; [done|].
    by replace (length xs <=? 128)%nat with true by (symmetry; apply Nat.leb_le; lia).
  - cbn [pairwise_sum_fuel].
    destruct (Nat.leb_spec (length xs) 128) as [Hle|Hgt].
    + destruct f2; cbn [pairwise_sum_fuel]; [by destruct (_ <=? _)%nat|].
      by replace (length xs <=? 128)%nat with true by (symmetry; apply Nat.leb_le; lia).
    + destruct f2 as [|f2]; [lia|]. cbn [pairwise_sum_fuel].
      replace (length xs <=? 128)%nat with false by (symmetry; apply Nat.leb_gt; lia).
      pose proof (pairwise_split _ Hgt) as Hn2. cbv zeta in Hn2.
      set (n2 := (length xs / 2 - (length xs / 2) mod 8)%nat) in *. clearbody n2.
      f_equal; apply IH; rewrite ?length_take, ?length_drop; lia.
Qed.

Lemma pairwise_sum_unfold (xs : list float64) :
  pairwise_sum xs =
    if (length xs <=? 128)%nat then block_sum xs
    else
      let n2 := (length xs / 2 - (length xs / 2) mod 8)%nat in
      F64.add (pairwise_sum (take n2 xs)) (pairwise_sum (drop n2 xs)).
Proof.
  unfold pairwise_sum at 1. destruct xs as [|x xs]; [done|].
  cbn [length pairwise_sum_fuel].
  destruct (Nat.leb_spec (S (length xs)) 128) as [Hle|Hgt]; [done|].
  pose proof (pairwise_split _ Hgt) as Hn2. cbv zeta in *.
  set (n2 := (S (length xs) / 2 - (S (length xs) / 2) mod 8)%nat) in *. clearbody n2.
  unfold pairwise_sum.
  f_equal; apply pairwise_sum_fuel_enough;
    rewrite ?length_take, ?length_drop; cbn [length]; lia.
Qed.

(** Fewer than 8 numbers are added from left to right. *)
Lemma np_sum_short (x : float64) (xs : list float64) :
  (length xs < 7)%nat ->
  np_sum (x :: xs) = F64.add F64.zero (foldl F64.add x xs).
Proof.
  intros Hlen. unfold np_sum, pairwise_sum. f_equal.
  assert (pairwise_sum_fuel (length (x :: xs)) (x :: xs) = block_sum (x :: xs)) as ->.
  { destruct (length (x :: xs)) eqn:Hn; cbn [pairwise_sum_fuel]; rewrite Hn;
      [done|]. cbn [length] in Hn.
    by replace (S n <=? 128)%nat with true by (symmetry; apply Nat.leb_le; lia). }
  destruct xs as [|x1 [|x2 [|x3 [|x4 [|x5 [|x6 [|x7 xs']]]]]]];
    cbn [block_sum foldl]; rewrite ?F64_add_nzero_l; try done.
  cbn [length] in Hlen. lia.
Qed.

(** From 8 numbers on the order matters.  With [m = 2 ^ 1023] the sum of
    [m, 0, m, -m, 0, 0, 0, 0] is [(m + 0) + (m + -m) = m] on the 8
    accumulators, while the sum from left to right passes through
    [m + m], which is too large for a double. *)
Example np_sum_pairwise :
  let m := S754_finite false 4503599627370496 971 in
  let xs := [m; F64.zero; m; S754_finite true 4503599627370496 971;
             F64.zero; F64.zero; F64.zero; F64.zero] in
  np_sum xs = m /\ foldl F64.add F64.zero xs = F64.pinf.
Proof. split; vm_compute; reflexivity. Qed.

Lemma float_sum_in_range (object_dtype : bool) (xs : list float64) :
  Forall F64.in_range xs -> F64.in_range (float_sum object_dtype xs).
Proof.
  intros Hxs.
  apply (float_sum_closed F64.in_range (fun _ => False)); try done.
  apply F64_add_in_range.
Qed.

Lemma fillna_in_range (xs : list float64) :
  Forall F64.in_range xs ->
  Forall F64.in_range ((fun x => if F64.is_nan x then F64.zero else x) <$> xs).
Proof.
  induction 1 as [|x xs Hx _ IH]; [done|].
  rewrite fmap_cons. constructor; [by destruct (F64.is_nan x)|done].
Qed.

Lemma nansum_in_range (object_dtype : bool) (xs : list float64) :
  Forall F64.in_range xs -> F64.in_range (nansum object_dtype xs).
Proof. intros Hxs. by apply float_sum_in_range, fillna_in_range. Qed.

Lemma F64_of_Z_1 : F64.of_Z 1 = S754_finite false 4503599627370496 (-52).
Proof. vm_compute. reflexivity. Qed.

(** A number at the top of the range divided by 1 is itself. *)
Lemma F64_div_1_top (sx : bool) (mx : positive) :
  digits2_pos mx = 53%positive ->
  F64.div (S754_finite sx mx 971) (F64.of_Z 1) = S754_finite sx mx 971.
Proof.
  intros Hd. rewrite F64_of_Z_1. unfold F64.div, F64.prec, F64.emax.
  cbn [SFdiv]. unfold SFdiv_core_binary.
  cbn [Zdigits2]. rewrite Hd.
  change (Z.min _ _) with 970.
  change (971 - -52 - 970) with 53. cbv iota beta.
  rewrite Z.shiftl_mul_pow2 by lia. change (2 ^ 53) with 9007199254740992.
  pose proof (Z_div_mod (Zpos mx * 9007199254740992) 4503599627370496 ltac:(lia)) as Hdiv.
  destruct (Z.div_eucl _ _) as [q r]. destruct Hdiv as [Hq Hr].
  assert (r = 0) as -> by lia. assert (q = Zpos mx~0) as -> by lia.
  change (new_location 4503599627370496 0) with loc_Exact.
  unfold binary_round_aux, shr_fexp. cbn [Zdigits2 digits2_pos]. rewrite Hd.
  change (fexp 53 1024 (Zpos (Pos.succ 53) + 970) - 970) with 1.
  cbn [shr shr_record_of_loc SpecFloat.iter_pos shr_1 loc_of_shr_record round_nearest_even shr_m].
  cbn [orb round_nearest_even Zdigits2]. rewrite Hd.
  change (fexp 53 1024 (53 + (970 + 1)) - (970 + 1)) with 0.
  cbn [shr shr_record_of_loc shr_m].
  change (970 + 1 <=? 1024 - 53) with true. cbv iota.
  by destruct sx.
Qed.

(** A finite number in range divided by a count of at least one is
    finite. *)
Lemma F64_div_count_finite (x : float64) (n : Z) :
  F64.in_range x -> F64.is_finite x = true -> 1 <= n ->
  F64.is_finite (F64.div x (F64.of_Z n)) = true.
Proof.
  intros Hx Hfin Hn.
  destruct x as [sx|sx| |sx mx ex]; try discriminate; clear Hfin.
  - (* zero *)
    destruct (Z.eq_dec n 1) as [->|Hn1]; [by rewrite F64_of_Z_1|].
    pose proof (binary_normalize_ge_2 F64.prec F64.emax F64_prec_pos F64_prec_emax
                  n ltac:(lia)) as Hy.
    unfold F64.of_Z. by destruct (binary_normalize _ _ _ _ _).
  - cbn [F64.in_range] in Hx. unfold F64.prec, F64.emax in Hx. destruct Hx as [Hd He].
    destruct (Z.eq_dec n 1) as [->|Hn1].
    + destruct (Z_le_gt_dec (Zpos (digits2_pos mx) + ex) 1023) as [Hlow|Htop].
      * rewrite F64_of_Z_1.
        pose proof (SFdiv_finite_finite F64.prec F64.emax F64_prec_pos F64_prec_emax
                      sx mx ex false 4503599627370496 (-52)) as Hdiv.
        change (Zpos (digits2_pos 4503599627370496)) with 53 in Hdiv.
        unfold F64.emax in Hdiv at 1. specialize (Hdiv ltac:(lia)).
        unfold F64.div. by destruct (SFdiv _ _ _ _).
      * assert (ex = 971) as -> by lia.
        assert (digits2_pos mx = 53%positive) as Hd53 by lia.
        by rewrite F64_div_1_top.
    + pose proof (binary_normalize_ge_2 F64.prec F64.emax F64_prec_pos F64_prec_emax
                    n ltac:(lia)) as Hy.
      unfold F64.of_Z. destruct (binary_normalize _ _ _ _ _) as [|sy| |sy my ey]; try done.
      destruct Hy as [-> Hy].
      pose proof (SFdiv_finite_finite F64.prec F64.emax F64_prec_pos F64_prec_emax
                    sx mx ex false my ey) as Hdiv.
      unfold F64.emax in Hdiv at 1. specialize (Hdiv ltac:(lia)).
      unfold F64.div. by destruct (SFdiv _ _ _ _).
Qed.

Lemma F64_div_finite_inv (x y : float64) :
  F64.is_finite (F64.div x y) = true -> F64.is_finite x = true.
Proof. destruct x as [sx|sx| |sx mx ex], y as [sy|sy| |sy my ey]; done. Qed.

(** When the pandas mean is finite. *)
Lemma nanmean_finite_iff (object_dtype : bool) (rs : list float64) :
  Forall F64.in_range rs ->
  F64.is_finite (nanmean object_dtype rs) = true <->
  (0 < notna_count rs)%nat /\ F64.is_finite (nansum object_dtype rs) = true.
Proof.
  intros Hrs. unfold nanmean.
  destruct (Z.ltb_spec 0 (Z.of_nat (notna_count rs))) as [Hpos|Hzero].
  - split.
    + intros Hfin. split; [lia|]. by apply F64_div_finite_inv in Hfin.
    + intros [_ Hfin]. apply F64_div_count_finite; [by apply nansum_in_range|done|lia].
  - split; [done|]. intros [Hpos _]. lia.
Qed.

Lemma py_truediv_in_range (a b : PyObject) (q : float64) :
  py_truediv a b = Ok q -> F64.in_range q.
Proof.
  destruct a as [| |n|x], b as [| |m|y]; cbn; try discriminate.
  - destruct (m =? 0); [discriminate|].
    destruct (F64.is_inf _); [discriminate|]. intros [= <-]. apply F64_div_in_range.
  - destruct (F64.is_inf (F64.of_Z n)); [discriminate|]. cbn.
    destruct (F64.is_zero y); [discriminate|]. intros [= <-]. apply F64_div_in_range.
  - destruct (F64.is_inf (F64.of_Z m)); [discriminate|]. cbn.
    destruct (F64.is_zero _); [discriminate|]. intros [= <-]. apply F64_div_in_range.
  - destruct (F64.is_zero y); [discriminate|]. intros [= <-]. apply F64_div_in_range.
Qed.

Lemma ratios_in_range (object_dtype : bool) (rws : list row) (rs : list float64) :
  result_mapM (ratio object_dtype) rws = Ok rs -> Forall F64.in_range rs.
Proof.
  revert rs. induction rws as [|rw rws IH]; intros rs; cbn.
  - by intros [= <-].
  - destruct (ratio object_dtype rw) as [q|e] eqn:Hq; [|discriminate]. cbn.
    destruct (result_mapM _ rws) as [qs|e]; [|discriminate]. cbn.
    intros [= <-]. constructor; [|by apply IH].
    unfold ratio in Hq. destruct object_dtype.
    + by apply py_truediv_in_range in Hq.
    + injection Hq as <-. apply F64_div_in_range.
Qed.

(* ===================================================================== *)
(** ** Boolean-mask selection *)
(* ===================================================================== *)

Section select_facts.
Context {A B : Type}.

Lemma select_nil_r (mask : list bool) : select mask (@nil A) = [].
Proof. by destruct mask. Qed.

(** Selecting with the mask computed from the list itself is a filter. *)
Lemma select_fmap_mask (f : A -> bool) (l : list A) :
  select (f <$> l) l = List.filter f l.
Proof.
  induction l as [|x l IH]; [done|].
  cbn. destruct (f x); by rewrite IH.
Qed.

Lemma select_fmap (g : A -> B) (mask : list bool) (l : list A) :
  select mask (g <$> l) = g <$> select mask l.
Proof.
  revert l. induction mask as [|b mask IH]; intros [|x l]; try done.
  cbn. destruct b; by rewrite IH.
Qed.

Lemma select_zip (mask : list bool) (l : list A) (k : list B) :
  select mask (zip l k) = zip (select mask l) (select mask k).
Proof.
  revert l k. induction mask as [|b mask IH]; intros [|x l] [|y k]; try done.
  - cbn. by destruct b, (select mask l).
  - cbn. destruct b; by rewrite IH.
Qed.

(** The number of selected rows depends on the mask only. *)
Lemma length_select (mask : list bool) (l : list A) (k : list B) :
  length l = length k -> length (select mask l) = length (select mask k).
Proof.
  revert l k. induction mask as [|b mask IH]; intros [|x l] [|y k] Hlen;
    try done.
  cbn in *. destruct b; cbn; auto with lia.
Qed.

Lemma mask_and_fmap (f : A -> bool) (g : B -> bool) (l : list A) (k : list B) :
  mask_and (f <$> l) (g <$> k) = (fun p => f p.1 && g p.2) <$> zip l k.
Proof.
  revert k. induction l as [|x l IH]; intros [|y k]; try done.
  cbn. f_equal. apply IH.
Qed.
End select_facts.

Lemma mask_and_true_r (mask : list bool) (n : nat) :
  length mask = n -> mask_and mask (replicate n true) = mask.
Proof.
  intros <-. induction mask as [|b mask IH]; [done|].
  cbn. rewrite andb_true_r. f_equal. apply IH.
Qed.

Lemma filter_filter_andb {A} (f g : A -> bool) (l : list A) :
  List.filter g (List.filter f l) = List.filter (fun x => f x && g x) l.
Proof.
  induction l as [|x l IH]; [done|].
  cbn. destruct (f x); cbn; [destruct (g x)|]; by rewrite IH.
Qed.

Lemma filter_ext_bool {A} (f g : A -> bool) (l : list A) :
  (forall x, f x = g x) -> List.filter f l = List.filter g l.
Proof. intros Hfg. induction l as [|x l IH]; [done|]. cbn. by rewrite Hfg, IH. Qed.

Lemma result_mapM_pure {A B} (h : A -> B) (l : list A) :
  result_mapM (fun x => Ok (h x)) l = Ok (h <$> l).
Proof. induction l as [|x l IH]; [done|]. cbn. by rewrite IH. Qed.

Lemma zip_with_fmap_same {A B C} (f : B -> B -> C) (g : A -> B) (l k : list A) :
  zip_with f (g <$> l) (g <$> k) = (fun p => f (g p.1) (g p.2)) <$> zip l k.
Proof.
  revert k. induction l as [|x l IH]; intros [|y k]; try done.
  cbn. f_equal. apply IH.
Qed.

(* ===================================================================== *)
(** ** Series facts *)
(* ===================================================================== *)

Lemma values_getitem_mask (s : Series) (mask : list bool) :
  values (Series_getitem_mask s mask) = select mask (values s).
Proof. destruct s; cbn; by rewrite ?select_fmap. Qed.

Lemma is_object_getitem_mask (s : Series) (mask : list bool) :
  is_object (Series_getitem_mask s mask) = is_object s.
Proof. by destruct s. Qed.

Lemma to_float64_values (s : Series) :
  is_object s = false -> to_float64 s = cell_double <$> values s.
Proof.
  destruct s as [vs|vs|vs]; cbn; intros Hobj; try done.
  - by rewrite <- list_fmap_compose.
  - rewrite <- list_fmap_compose. symmetry. apply list_fmap_id.
Qed.

(** The division of two columns is the row-wise [ratio]; the dtype of the
    quotient is [object] as soon as one of the columns has it. *)
Lemma Series_truediv_rows (a b : Series) :
  Series_truediv a b
  = result_map (mkFloatSeries (is_object a || is_object b)) (ratios a b (rows a b)).
Proof.
  unfold Series_truediv, ratios, ratio, rows.
  destruct (is_object a || is_object b) eqn:Hobj; [done|].
  apply orb_false_elim in Hobj as [Ha Hb].
  rewrite result_mapM_pure, (to_float64_values a Ha), (to_float64_values b Hb).
  by rewrite zip_with_fmap_same.
Qed.

(** The code's two filters agree with the specification's [valid_row]. *)
Lemma filters_valid_row (rw : row) :
  (negb (isna rw.1) && negb (isna rw.2)) && (isreal rw.1 && isreal rw.2)
  = valid_row rw.
Proof.
  destruct rw as [[| |n|x] [| |m|y]];
    try destruct x; try destruct y; reflexivity.
Qed.

(* ===================================================================== *)
(** ** Running the primitives on a store *)
(* ===================================================================== *)

Section run.
Context {A B : Type}.

Lemma Py_bind_ok (m : Py A) (k : A -> Py B) (σ σ' : store) (a : A) :
  m σ = (Ok a, σ') -> (x ← m; k x) σ = k a σ'.
Proof. intros Hm. unfold mbind, Py_mbind, Py_bind. by rewrite Hm. Qed.

Lemma Py_bind_raise (m : Py A) (k : A -> Py B) (σ σ' : store) (e : exn) :
  m σ = (Raise e, σ') -> (x ← m; k x) σ = (Raise e, σ').
Proof. intros Hm. unfold mbind, Py_mbind, Py_bind. by rewrite Hm. Qed.
End run.

Lemma deref_run (σ : store) (r : ref) (df : DataFrame) :
  σ !! r = Some df -> deref r σ = (Ok df, σ).
Proof. intros Hr. unfold deref. by rewrite Hr. Qed.

Lemma columns_contains_run (σ : store) (r : ref) (df : DataFrame) (name : string) :
  σ !! r = Some df ->
  columns_contains r name σ = (Ok (bool_decide (is_Some (columns df !! name))), σ).
Proof.
  intros Hr. unfold columns_contains.
  by rewrite (Py_bind_ok _ _ _ _ _ (deref_run _ _ _ Hr)).
Qed.

Lemma getitem_run (σ : store) (r : ref) (df : DataFrame) (name : string) (s : Series) :
  σ !! r = Some df -> columns df !! name = Some s -> getitem r name σ = (Ok s, σ).
Proof.
  intros Hr Hs. unfold getitem.
  rewrite (Py_bind_ok _ _ _ _ _ (deref_run _ _ _ Hr)). by rewrite Hs.
Qed.

Lemma getitem_missing (σ : store) (r : ref) (df : DataFrame) (name : string) :
  σ !! r = Some df -> columns df !! name = None ->
  getitem r name σ = (Raise (KeyError name), σ).
Proof.
  intros Hr Hs. unfold getitem.
  rewrite (Py_bind_ok _ _ _ _ _ (deref_run _ _ _ Hr)). by rewrite Hs.
Qed.

Lemma mapM_getitem_run (σ : store) (r : ref) (df : DataFrame)
    (subset : list string) (cols : list Series) :
  σ !! r = Some df ->
  Forall2 (fun name s => columns df !! name = Some s) subset cols ->
  mapM (getitem r) subset σ = (Ok cols, σ).
Proof.
  intros Hr Hcols. induction Hcols as [|name s subset cols Hs _ IH]; [done|].
  cbn [mapM].
  rewrite (Py_bind_ok _ _ _ _ _ (getitem_run _ _ _ _ _ Hr Hs)).
  by rewrite (Py_bind_ok _ _ _ _ _ IH).
Qed.

Lemma dropna_run (σ : store) (r : ref) (df : DataFrame)
    (subset : list string) (cols : list Series) :
  σ !! r = Some df ->
  Forall2 (fun name s => columns df !! name = Some s) subset cols ->
  dropna r subset σ =
    (Ok (fresh (dom σ)),
     <[fresh (dom σ) := DataFrame_select df (notna_mask (length (index df)) cols)]> σ).
Proof.
  intros Hr Hcols. unfold dropna.
  rewrite (Py_bind_ok _ _ _ _ _ (deref_run _ _ _ Hr)).
  by rewrite (Py_bind_ok _ _ _ _ _ (mapM_getitem_run _ _ _ _ _ Hr Hcols)).
Qed.

Lemma getitem_mask_run (σ : store) (r : ref) (df : DataFrame) (mask : list bool) :
  σ !! r = Some df ->
  getitem_mask r mask σ =
    (Ok (fresh (dom σ)), <[fresh (dom σ) := DataFrame_select df mask]> σ).
Proof.
  intros Hr. unfold getitem_mask.
  by rewrite (Py_bind_ok _ _ _ _ _ (deref_run _ _ _ Hr)).
Qed.

Lemma empty_run (σ : store) (r : ref) (df : DataFrame) :
  σ !! r = Some df -> empty r σ = (Ok (DataFrame_empty df), σ).
Proof.
  intros Hr. unfold empty.
  by rewrite (Py_bind_ok _ _ _ _ _ (deref_run _ _ _ Hr)).
Qed.

Lemma columns_select (df : DataFrame) (mask : list bool) (name : string) (s : Series) :
  columns df !! name = Some s ->
  columns (DataFrame_select df mask) !! name = Some (Series_getitem_mask s mask).
Proof. intros Hs. cbn. by rewrite lookup_fmap, Hs. Qed.

Lemma calculate_ppp_run (σ : store) (r : ref) (df : DataFrame) (sa sb : Series) (ca cb : string) :
  σ !! r = Some df ->
  columns df !! "Price_A" = Some sa ->
  columns df !! "Price_B" = Some sb ->
  calculate_ppp (PyStr ca) (PyStr cb) r σ =
    let m1 := notna_mask (length (index df)) [sa; sb] in
    let df1 := DataFrame_select df m1 in
    let σ1 := <[fresh (dom σ) := df1]> σ in
    let sa1 := Series_getitem_mask sa m1 in
    let sb1 := Series_getitem_mask sb m1 in
    let m2 := mask_and (Series_apply isreal sa1) (Series_apply isreal sb1) in
    let df2 := DataFrame_select df1 m2 in
    let σ2 := <[fresh (dom σ1) := df2]> σ1 in
    (if DataFrame_empty df2 then Raise (ValueError msg_no_data)
     else result_map np_mean
            (Series_truediv (Series_getitem_mask sa1 m2) (Series_getitem_mask sb1 m2)),
     σ2).
Proof.
  intros Hr Ha Hb. cbv zeta.
  unfold calculate_ppp. cbn [isinstance_str negb orb].
  rewrite (Py_bind_ok _ _ _ _ _ (columns_contains_run _ _ _ _ Hr)).
  rewrite (Py_bind_ok _ _ _ _ _ (columns_contains_run _ _ _ _ Hr)).
  rewrite Ha, Hb.
  rewrite !bool_decide_eq_true_2 by eauto. cbn [negb orb].
  assert (Hcols : Forall2 (fun name s => columns df !! name = Some s)
                    ["Price_A"; "Price_B"] [sa; sb]) by (repeat constructor; done).
  rewrite (Py_bind_ok _ _ _ _ _ (dropna_run _ _ _ _ _ Hr Hcols)).
  set (m1 := notna_mask _ _). set (df1 := DataFrame_select df m1).
  set (r1 := fresh (dom σ)). set (σ1 := <[r1 := df1]> σ).
  assert (Hr1 : σ1 !! r1 = Some df1) by apply lookup_insert_eq.
  pose proof (columns_select df m1 _ _ Ha) as Ha1.
  pose proof (columns_select df m1 _ _ Hb) as Hb1.
  rewrite (Py_bind_ok _ _ _ _ _ (getitem_run _ _ _ _ _ Hr1 Ha1)).
  rewrite (Py_bind_ok _ _ _ _ _ (getitem_run _ _ _ _ _ Hr1 Hb1)).
  rewrite (Py_bind_ok _ _ _ _ _ (getitem_mask_run _ _ _ _ Hr1)).
  set (m2 := mask_and _ _). set (df2 := DataFrame_select df1 m2).
  set (r2 := fresh (dom σ1)). set (σ2 := <[r2 := df2]> σ1).
  assert (Hr2 : σ2 !! r2 = Some df2) by apply lookup_insert_eq.
  rewrite (Py_bind_ok _ _ _ _ _ (empty_run _ _ _ Hr2)).
  destruct (DataFrame_empty df2); [done|].
  pose proof (columns_select df1 m2 _ _ Ha1) as Ha2.
  pose proof (columns_select df1 m2 _ _ Hb1) as Hb2.
  rewrite (Py_bind_ok _ _ _ _ _ (getitem_run _ _ _ _ _ Hr2 Ha2)).
  rewrite (Py_bind_ok _ _ _ _ _ (getitem_run _ _ _ _ _ Hr2 Hb2)).
  unfold mbind, Py_mbind, Py_bind, lift, result_map, result_bind, mret, Py_mret, Py_ret.
  by destruct (Series_truediv _ _).
Qed.

(* ===================================================================== *)
(** ** From the column-wise code to rows *)
(* ===================================================================== *)

(** The frame that survives [dropna] and the [np.isreal] mask holds
    exactly the valid rows, in their order. *)
Lemma surviving_rows (n : nat) (sa sb : Series) :
  Series_len sa = n -> Series_len sb = n ->
  let m1 := notna_mask n [sa; sb] in
  let sa1 := Series_getitem_mask sa m1 in
  let sb1 := Series_getitem_mask sb m1 in
  let m2 := mask_and (Series_apply isreal sa1) (Series_apply isreal sb1) in
  m1 = (fun rw : row => negb (isna rw.1) && negb (isna rw.2)) <$> rows sa sb /\
  m2 = (fun rw : row => isreal rw.1 && isreal rw.2) <$> rows sa1 sb1 /\
  rows (Series_getitem_mask sa1 m2) (Series_getitem_mask sb1 m2) = valid_rows sa sb.
Proof.
  intros Hla Hlb m1 sa1 sb1 m2.
  assert (Hm1 : m1 = (fun rw : row => negb (isna rw.1) && negb (isna rw.2))
                       <$> rows sa sb).
  { subst m1. cbn [notna_mask]. unfold Series_isna.
    rewrite (mask_and_true_r _ n) by (by rewrite !length_fmap).
    rewrite <- !list_fmap_compose. by rewrite mask_and_fmap. }
  assert (Hrows1 : rows sa1 sb1 =
            List.filter (fun rw : row => negb (isna rw.1) && negb (isna rw.2)) (rows sa sb)).
  { unfold rows, sa1, sb1. rewrite !values_getitem_mask, <- select_zip.
    rewrite Hm1. apply select_fmap_mask. }
  assert (Hm2 : m2 = (fun rw : row => isreal rw.1 && isreal rw.2) <$> rows sa1 sb1).
  { subst m2. unfold Series_apply. by rewrite mask_and_fmap. }
  split; [done|]. split; [done|].
  unfold rows at 1. rewrite !values_getitem_mask, <- select_zip.
  fold (rows sa1 sb1). rewrite Hm2, select_fmap_mask, Hrows1, filter_filter_andb.
  apply filter_ext_bool, filters_valid_row.
Qed.

Lemma wf_frame_lookup (df : DataFrame) (name : string) (s : Series) :
  wf_frame df -> columns df !! name = Some s -> Series_len s = length (index df).
Proof. intros Hwf Hs. exact (map_Forall_lookup_1 _ _ _ _ Hwf Hs). Qed.

Lemma DataFrame_empty_select (df : DataFrame) (m1 m2 : list bool) (name : string) (s : Series) :
  columns df !! name = Some s ->
  DataFrame_empty (DataFrame_select (DataFrame_select df m1) m2)
  = (Z.of_nat (length (select m2 (select m1 (index df)))) =? 0).
Proof.
  intros Hs. unfold DataFrame_empty. cbn [index columns DataFrame_select].
  rewrite !map_size_fmap.
  assert (size (columns df) <> 0%nat) as Hsize.
  { intros Hz. apply map_size_empty_inv in Hz. by rewrite Hz, lookup_empty in Hs. }
  replace (Z.of_nat (size (columns df)) =? 0) with false by (symmetry; apply Z.eqb_neq; lia).
  apply orb_false_r.
Qed.

(** The outcome of a call on a well-formed table with both price columns
    and string currency identifiers, in terms of the valid rows. *)
Lemma calculate_ppp_rows (σ : store) (r : ref) (df : DataFrame) (sa sb : Series)
    (ca cb : string) :
  σ !! r = Some df ->
  wf_frame df ->
  columns df !! "Price_A" = Some sa ->
  columns df !! "Price_B" = Some sb ->
  (calculate_ppp (PyStr ca) (PyStr cb) r σ).1
  = ppp_of_rows (is_object sa || is_object sb) (valid_rows sa sb).
Proof.
  intros Hr Hwf Ha Hb.
  rewrite (calculate_ppp_run σ r df sa sb ca cb Hr Ha Hb). cbv zeta. cbn [fst].
  pose proof (wf_frame_lookup _ _ _ Hwf Ha) as Hla.
  pose proof (wf_frame_lookup _ _ _ Hwf Hb) as Hlb.
  destruct (surviving_rows _ sa sb Hla Hlb) as (Hm1 & Hm2 & Hrows).
  set (m1 := notna_mask _ _) in *.
  set (sa1 := Series_getitem_mask sa m1) in *.
  set (sb1 := Series_getitem_mask sb m1) in *.
  set (m2 := mask_and _ _) in *.
  rewrite (DataFrame_empty_select df m1 m2 _ _ Ha).
  assert (Hlen : length (select m2 (select m1 (index df))) = length (valid_rows sa sb)).
  { rewrite <- Hrows. unfold rows at 1. rewrite !values_getitem_mask, <- select_zip.
    apply length_select. unfold rows, sa1, sb1.
    rewrite !values_getitem_mask, <- select_zip.
    apply length_select. rewrite length_zip_with.
    unfold Series_len in *. lia. }
  rewrite Hlen, Series_truediv_rows, Hrows.
  unfold ratios, sa1, sb1. rewrite !is_object_getitem_mask.
  unfold ppp_of_rows. destruct (valid_rows sa sb) as [|rw rws]; [done|].
  cbn [length]. replace (Z.of_nat (S (length rws)) =? 0) with false
    by (symmetry; apply Z.eqb_neq; lia).
  unfold result_map, result_bind, np_mean.
  by destruct (result_mapM _ (rw :: rws)).
Qed.

(* ===================================================================== *)
(** ** The repository's unit tests *)
(* ===================================================================== *)

Example test_valid_data : Tests.run Tests.valid_data = Ok (F64.of_Z 10).
Proof. vm_compute. reflexivity. Qed.

Example test_missing_prices : Tests.run Tests.missing_prices = Ok (F64.of_Z 10).
Proof. vm_compute. reflexivity. Qed.

Example test_non_numeric_prices :
  Tests.run Tests.non_numeric_prices = Ok (F64.of_Z 10).
Proof. vm_compute. reflexivity. Qed.

Example test_empty_dataframe :
  Tests.run Tests.empty_dataframe = Raise (ValueError msg_no_data).
Proof. vm_compute. reflexivity. Qed.

(* ===================================================================== *)
(** ** Concrete tables are well formed *)
(* ===================================================================== *)

Lemma wf_frame_decide (df : DataFrame) :
  bool_decide (wf_frame df) = true -> wf_frame df.
Proof. apply bool_decide_eq_true_1. Defined.

Lemma store_lookup_price_data (df : DataFrame) :
  ({[ Tests.price_data := df ]} : store) !! Tests.price_data = Some df.
Proof. apply lookup_singleton_eq. Defined.


(* ===================================================================== *)
(** ** The two argument checks *)
(* ===================================================================== *)

Lemma run_not_strings (currency_a currency_b : PyObject) (price_data : ref) (σ : store) :
  isinstance_str currency_a = false \/ isinstance_str currency_b = false ->
  calculate_ppp currency_a currency_b price_data σ
  = (Raise (ValueError msg_currency), σ).
Proof.
  intros Hstr. unfold calculate_ppp.
  destruct Hstr as [-> | ->]; cbn [negb orb]; [done|].
  by rewrite orb_true_r.
Qed.

Lemma run_missing_column
    (currency_a currency_b : string) (price_data : ref) (σ : store) (df : DataFrame) :
  σ !! price_data = Some df ->
  columns df !! "Price_A" = None \/ columns df !! "Price_B" = None ->
  calculate_ppp (PyStr currency_a) (PyStr currency_b) price_data σ
  = (Raise (ValueError msg_columns), σ).
Proof.
  intros Hr Hmiss. unfold calculate_ppp. cbn [isinstance_str negb orb].
  rewrite (Py_bind_ok _ _ _ _ _ (columns_contains_run _ _ _ _ Hr)).
  rewrite (Py_bind_ok _ _ _ _ _ (columns_contains_run _ _ _ _ Hr)).
  destruct Hmiss as [-> | ->].
  - by rewrite (bool_decide_eq_false_2 (is_Some None)) by (by intros [? ?]).
  - rewrite (bool_decide_eq_false_2 (is_Some None)) by (by intros [? ?]).
    cbn [negb]. by rewrite orb_true_r.
Qed.

Lemma isinstance_str_inv (o : PyObject) :
  isinstance_str o = true -> exists s, o = PyStr s.
Proof. destruct o; try discriminate. eauto. Qed.

(* ===================================================================== *)
(** ** Validation *)
(* ===================================================================== *)

(** C5.  If either currency identifier is not a string, the call fails
    with [ValueError] (the specification's InvalidArgument), whatever the
    table holds; the store is left as it was. *)
Theorem non_string_currency_rejected
    (currency_a currency_b : PyObject) (price_data : ref) (σ : store) :
  isinstance_str currency_a = false \/ isinstance_str currency_b = false ->
  calculate_ppp currency_a currency_b price_data σ
  = (Raise (ValueError msg_currency), σ).
Proof.
  apply run_not_strings.
Qed.

Lemma non_string_currency_rejected_witness :
  (isinstance_str (PyInt 840) = false \/ isinstance_str (PyStr "EUR") = false) /\
  calculate_ppp (PyInt 840) (PyStr "EUR") Tests.price_data
    {[ Tests.price_data := Tests.valid_data ]}
  = (Raise (ValueError msg_currency), {[ Tests.price_data := Tests.valid_data ]}).
Proof.
  split; [left; reflexivity|].
  apply (non_string_currency_rejected (PyInt 840) (PyStr "EUR")).
  left; reflexivity.
Defined.

(** C6.  With string currency identifiers, a table that lacks the
    [Price_A] column or the [Price_B] column makes the call fail with
    [ValueError]. *)
Theorem missing_column_rejected
    (currency_a currency_b : string) (price_data : ref) (σ : store) (df : DataFrame) :
  σ !! price_data = Some df ->
  columns df !! "Price_A" = None \/ columns df !! "Price_B" = None ->
  calculate_ppp (PyStr currency_a) (PyStr currency_b) price_data σ
  = (Raise (ValueError msg_columns), σ).
Proof.
  apply run_missing_column.
Qed.

Lemma missing_column_rejected_witness :
  ({[ Tests.price_data := Tables.no_price_columns ]} : store) !! Tests.price_data
    = Some Tables.no_price_columns /\
  (columns Tables.no_price_columns !! "Price_A" = None \/
   columns Tables.no_price_columns !! "Price_B" = None) /\
  calculate_ppp (PyStr "USD") (PyStr "EUR") Tests.price_data
    {[ Tests.price_data := Tables.no_price_columns ]}
  = (Raise (ValueError msg_columns), {[ Tests.price_data := Tables.no_price_columns ]}).
Proof.
  split; [apply store_lookup_price_data|].
  split; [left; reflexivity|].
  apply (missing_column_rejected "USD" "EUR" Tests.price_data _ Tables.no_price_columns).
  - apply store_lookup_price_data.
  - left; reflexivity.
Defined.

(** C7.  With both price columns present, a table none of whose rows
    is valid (every row has a missing or non-numeric price; a table
    without rows is the special case of no row at all) makes the call
    fail with [ValueError]. *)
Theorem no_valid_row_rejected
    (currency_a currency_b : string) (price_data : ref) (σ : store) (df : DataFrame)
    (price_a price_b : Series) :
  σ !! price_data = Some df ->
  wf_frame df ->
  columns df !! "Price_A" = Some price_a ->
  columns df !! "Price_B" = Some price_b ->
  Forall (fun rw => valid_row rw = false) (rows price_a price_b) ->
  (calculate_ppp (PyStr currency_a) (PyStr currency_b) price_data σ).1
  = Raise (ValueError msg_no_data).
Proof.
  intros Hr Hwf Ha Hb Hinv.
  rewrite (calculate_ppp_rows _ _ _ _ _ _ _ Hr Hwf Ha Hb).
  replace (valid_rows price_a price_b) with (@nil row); [done|].
  unfold valid_rows. induction Hinv as [|rw rws Hrw _ IH]; [done|].
  cbn. by rewrite Hrw.
Qed.

(** The table without rows. *)
Corollary zero_rows_rejected
    (currency_a currency_b : string) (price_data : ref) (σ : store) (df : DataFrame)
    (price_a price_b : Series) :
  σ !! price_data = Some df ->
  wf_frame df ->
  columns df !! "Price_A" = Some price_a ->
  columns df !! "Price_B" = Some price_b ->
  index df = [] ->
  (calculate_ppp (PyStr currency_a) (PyStr currency_b) price_data σ).1
  = Raise (ValueError msg_no_data).
Proof.
  intros Hr Hwf Ha Hb Hidx.
  rewrite (calculate_ppp_rows _ _ _ _ _ _ _ Hr Hwf Ha Hb).
  pose proof (wf_frame_lookup _ _ _ Hwf Ha) as Hla.
  rewrite Hidx in Hla. unfold valid_rows, rows.
  unfold Series_len in Hla. by destruct (values price_a).
Qed.

Lemma no_valid_row_rejected_witness :
  ({[ Tests.price_data := Tables.all_invalid ]} : store) !! Tests.price_data
    = Some Tables.all_invalid /\
  wf_frame Tables.all_invalid /\
  columns Tables.all_invalid !! "Price_A"
    = Some (ObjectSeries [PyNone; PyStr "a"; PyInt 5]) /\
  columns Tables.all_invalid !! "Price_B"
    = Some (ObjectSeries [PyInt 1; PyInt 2; PyFloat F64.nan]) /\
  Forall (fun rw => valid_row rw = false)
    (rows (ObjectSeries [PyNone; PyStr "a"; PyInt 5])
          (ObjectSeries [PyInt 1; PyInt 2; PyFloat F64.nan])) /\
  (calculate_ppp (PyStr "USD") (PyStr "EUR") Tests.price_data
     {[ Tests.price_data := Tables.all_invalid ]}).1
  = Raise (ValueError msg_no_data).
Proof.
  assert (Hwf : wf_frame Tables.all_invalid)
    by (apply wf_frame_decide; vm_compute; reflexivity).
  assert (Hinv : Forall (fun rw => valid_row rw = false)
            (rows (ObjectSeries [PyNone; PyStr "a"; PyInt 5])
                  (ObjectSeries [PyInt 1; PyInt 2; PyFloat F64.nan])))
    by (repeat constructor).
  split; [apply store_lookup_price_data|].
  split; [exact Hwf|].
  split; [reflexivity|].
  split; [reflexivity|].
  split; [exact Hinv|].
  apply (no_valid_row_rejected "USD" "EUR" Tests.price_data _ Tables.all_invalid
           (ObjectSeries [PyNone; PyStr "a"; PyInt 5])
           (ObjectSeries [PyInt 1; PyInt 2; PyFloat F64.nan])).
  - apply store_lookup_price_data.
  - exact Hwf.
  - reflexivity.
  - reflexivity.
  - exact Hinv.
Defined.

(** C10.  The checks are made in the order of the source: the currency
    identifiers first, the price columns second, the rows last.  A
    non-string identifier is reported whatever the table looks like, in
    particular when a price column is missing as well; a missing column is
    reported whatever the rows hold; the three messages differ. *)
Theorem validation_order
    (currency_a currency_b : PyObject) (price_data : ref) (σ : store) (df : DataFrame) :
  σ !! price_data = Some df ->
  let outcome := (calculate_ppp currency_a currency_b price_data σ).1 in
  let strings := isinstance_str currency_a && isinstance_str currency_b in
  let missing := columns df !! "Price_A" = None \/ columns df !! "Price_B" = None in
  (strings = false -> outcome = Raise (ValueError msg_currency)) /\
  (strings = false -> missing -> outcome = Raise (ValueError msg_currency)) /\
  (strings = true -> missing -> outcome = Raise (ValueError msg_columns)) /\
  (strings = true -> wf_frame df ->
   forall price_a price_b,
     columns df !! "Price_A" = Some price_a ->
     columns df !! "Price_B" = Some price_b ->
     valid_rows price_a price_b = [] ->
     outcome = Raise (ValueError msg_no_data)) /\
  msg_currency <> msg_columns /\ msg_columns <> msg_no_data /\
  msg_currency <> msg_no_data.
Proof.
  intros Hr outcome strings missing.
  assert (Hcur : strings = false -> outcome = Raise (ValueError msg_currency)).
  { intros Hs. subst outcome strings. apply andb_false_iff in Hs.
    by rewrite (run_not_strings _ _ _ _ Hs). }
  split; [exact Hcur|]. split; [auto|].
  split; [|split; [|done]].
  - intros Hs Hmiss. subst outcome strings. apply andb_true_iff in Hs as [Hsa Hsb].
    apply isinstance_str_inv in Hsa as [ca ->], Hsb as [cb ->].
    by rewrite (run_missing_column _ _ _ _ _ Hr Hmiss).
  - intros Hs Hwf price_a price_b Ha Hb Hnone. subst outcome strings.
    apply andb_true_iff in Hs as [Hsa Hsb].
    apply isinstance_str_inv in Hsa as [ca ->], Hsb as [cb ->].
    rewrite (calculate_ppp_rows _ _ _ _ _ _ _ Hr Hwf Ha Hb). by rewrite Hnone.
Qed.

Lemma validation_order_witness :
  ({[ Tests.price_data := Tables.no_price_columns ]} : store) !! Tests.price_data
    = Some Tables.no_price_columns /\
  (calculate_ppp (PyInt 840) (PyStr "EUR") Tests.price_data
     {[ Tests.price_data := Tables.no_price_columns ]}).1
  = Raise (ValueError msg_currency).
Proof.
  split; [apply store_lookup_price_data|].
  destruct (validation_order (PyInt 840) (PyStr "EUR") Tests.price_data
              {[ Tests.price_data := Tables.no_price_columns ]}
              Tables.no_price_columns (store_lookup_price_data _))
    as (_ & Hboth & _).
  apply Hboth; [reflexivity | left; reflexivity].
Defined.

(** C3.  The currency identifiers have no influence: on one table (one
    store and one reference), any two pairs of string identifiers give
    the same outcome, value or error, and the same final store. *)
Theorem currency_independence
    (currency_a currency_b currency_a' currency_b' : string)
    (price_data : ref) (σ : store) :
  calculate_ppp (PyStr currency_a) (PyStr currency_b) price_data σ
  = calculate_ppp (PyStr currency_a') (PyStr currency_b') price_data σ.
Proof. reflexivity. Qed.

(* ===================================================================== *)
(** ** The store only grows *)
(* ===================================================================== *)

Section preserves.
Context {A B : Type}.

Lemma preserves_ret (a : A) : preserves_store (mret a : Py A).
Proof. by intros σ. Qed.

Lemma preserves_raise (e : exn) : preserves_store (raise e : Py A).
Proof. by intros σ. Qed.

Lemma preserves_lift (r : result A) : preserves_store (lift r).
Proof. by intros σ. Qed.

Lemma preserves_bind (m : Py A) (k : A -> Py B) :
  preserves_store m -> (forall a, preserves_store (k a)) ->
  preserves_store (x ← m; k x).
Proof.
  intros Hm Hk σ. unfold mbind, Py_mbind, Py_bind.
  specialize (Hm σ). destruct (m σ) as [[a|e] σ']; cbn in *; [|done].
  etrans; [exact Hm|]. apply Hk.
Qed.
End preserves.

Lemma preserves_deref (r : ref) : preserves_store (deref r).
Proof. intros σ. unfold deref. by destruct (σ !! r). Qed.

Lemma preserves_new_frame (df : DataFrame) : preserves_store (new_frame df).
Proof.
  intros σ. unfold new_frame. cbn.
  apply insert_subseteq, not_elem_of_dom, is_fresh.
Qed.

Lemma preserves_getitem (r : ref) (name : string) : preserves_store (getitem r name).
Proof.
  apply preserves_bind; [apply preserves_deref|].
  intros df. destruct (columns df !! name); [apply preserves_ret | apply preserves_raise].
Qed.

Lemma preserves_columns_contains (r : ref) (name : string) :
  preserves_store (columns_contains r name).
Proof. apply preserves_bind; [apply preserves_deref|]. intros df. apply preserves_ret. Qed.

Lemma preserves_mapM {A B} (f : A -> Py B) (l : list A) :
  (forall a, preserves_store (f a)) -> preserves_store (mapM f l).
Proof.
  intros Hf. induction l as [|a l IH]; [apply preserves_ret|].
  cbn [mapM]. apply preserves_bind; [apply Hf|]. intros b.
  apply preserves_bind; [apply IH|]. intros bs. apply preserves_ret.
Qed.

Lemma preserves_dropna (r : ref) (subset : list string) : preserves_store (dropna r subset).
Proof.
  apply preserves_bind; [apply preserves_deref|]. intros df.
  apply preserves_bind; [apply preserves_mapM, preserves_getitem|]. intros cols.
  apply preserves_new_frame.
Qed.

Lemma preserves_getitem_mask (r : ref) (mask : list bool) :
  preserves_store (getitem_mask r mask).
Proof.
  apply preserves_bind; [apply preserves_deref|]. intros df. apply preserves_new_frame.
Qed.

Lemma preserves_empty (r : ref) : preserves_store (empty r).
Proof. apply preserves_bind; [apply preserves_deref|]. intros df. apply preserves_ret. Qed.

Lemma preserves_calculate_ppp (currency_a currency_b : PyObject) (price_data : ref) :
  preserves_store (calculate_ppp currency_a currency_b price_data).
Proof.
  unfold calculate_ppp.
  destruct (negb (isinstance_str currency_a) || negb (isinstance_str currency_b));
    [apply preserves_raise|].
  apply preserves_bind; [apply preserves_columns_contains|]. intros has_a.
  apply preserves_bind; [apply preserves_columns_contains|]. intros has_b.
  destruct (negb has_a || negb has_b); [apply preserves_raise|].
  apply preserves_bind; [apply preserves_dropna|]. intros price_data1.
  apply preserves_bind; [apply preserves_getitem|]. intros col_a.
  apply preserves_bind; [apply preserves_getitem|]. intros col_b.
  apply preserves_bind; [apply preserves_getitem_mask|]. intros price_data2.
  apply preserves_bind; [apply preserves_empty|]. intros [|]; [apply preserves_raise|].
  apply preserves_bind; [apply preserves_getitem|]. intros col_a2.
  apply preserves_bind; [apply preserves_getitem|]. intros col_b2.
  apply preserves_bind; [apply preserves_lift|]. intros price_ratios.
  apply preserves_ret.
Qed.

(** C9.  The call never mutates the caller's table: every frame of the
    store before the call, the one passed in among them, is bound to the
    same contents after the call, whether the call returns or raises.
    The store of frames is the only state the function touches; the
    frames it builds are new objects. *)
Theorem table_not_mutated
    (currency_a currency_b : PyObject) (price_data : ref) (σ : store) :
  σ ⊆ (calculate_ppp currency_a currency_b price_data σ).2.
Proof. apply preserves_calculate_ppp. Qed.

(** In particular the frame behind [price_data] reads the same. *)
Corollary price_data_unchanged
    (currency_a currency_b : PyObject) (price_data : ref) (σ : store) (df : DataFrame) :
  σ !! price_data = Some df ->
  (calculate_ppp currency_a currency_b price_data σ).2 !! price_data = Some df.
Proof.
  intros Hr. eapply lookup_weaken; [exact Hr|]. apply preserves_calculate_ppp.
Qed.

(* ===================================================================== *)
(** ** Which errors can come out *)
(* ===================================================================== *)

Lemma as_double_numeric (c : PyObject) :
  numeric c = true ->
  (exists x, as_double c = Ok x) \/ as_double c = Raise OverflowError.
Proof.
  destruct c as [| |n|x]; try discriminate; intros _; cbn; [|eauto].
  destruct (F64.is_inf (F64.of_Z n)); eauto.
Qed.


Lemma result_mapM_errors {A B} (f : A -> result B) (P : exn -> Prop) (l : list A) :
  Forall (fun x => (exists y, f x = Ok y) \/ (exists e, f x = Raise e /\ P e)) l ->
  (exists ys, result_mapM f l = Ok ys) \/
  (exists e, result_mapM f l = Raise e /\ P e).
Proof.
  induction 1 as [|x l Hx _ IH]; [left; by exists []|].
  cbn. destruct Hx as [[y ->] | (e & -> & He)]; [|right; eauto].
  cbn. destruct IH as [[ys ->] | (e & -> & He)]; [left|right]; cbn; eauto.
Qed.

Lemma valid_rows_valid (price_a price_b : Series) :
  Forall (fun rw => valid_row rw = true) (valid_rows price_a price_b).
Proof.
  apply List.Forall_forall. intros rw Hin.
  by apply List.filter_In in Hin as [_ ?].
Qed.


Lemma Zdigits2_int64 (n : Z) : - 2 ^ 63 <= n < 2 ^ 63 -> Zdigits2 n <= 64.
Proof.
  intros Hn. destruct n as [|p|p]; [done| |].
  - apply (Zdigits2_le_pow (Zpos p) 64); lia.
  - change (Zdigits2 (Zneg p)) with (Zdigits2 (Zpos p)).
    apply (Zdigits2_le_pow (Zpos p) 64); lia.
Qed.

(** The float of a 64-bit integer is finite, and it is zero for 0 only. *)
Lemma F64_of_Z_int64 (n : Z) :
  - 2 ^ 63 <= n < 2 ^ 63 ->
  F64.is_inf (F64.of_Z n) = false /\ (n <> 0 -> F64.is_zero (F64.of_Z n) = false).
Proof.
  intros Hn. pose proof (Zdigits2_int64 n Hn) as Hd.
  unfold F64.of_Z.
  assert (forall (s : bool) (p : positive),
             Zpos (digits2_pos p) <= 64 ->
             F64.is_inf (binary_round F64.prec F64.emax s p 0) = false /\
             F64.is_zero (binary_round F64.prec F64.emax s p 0) = false) as Hround.
  { intros s p Hp. unfold binary_round.
    pose proof (shl_align_magnitude p 0 (fexp F64.prec F64.emax (Zpos (digits2_pos p) + 0)))
      as Hal.
    assert ((shl_align p 0 (fexp F64.prec F64.emax (Zpos (digits2_pos p) + 0))).2 <= 0)
      as Hez.
    { unfold shl_align. destruct (_ - 0) as [|d|d] eqn:Hd'; cbn [snd]; lia. }
    destruct (shl_align _ _ _) as [mz ez]. cbn [fst snd] in Hal, Hez.
    pose proof (binary_round_aux_finite F64.prec F64.emax F64_prec_pos F64_prec_emax
                  s (Zpos mz) ez loc_Exact ltac:(lia)) as Hfin.
    pose proof (binary_round_aux_lower F64.prec F64.emax F64_prec_pos
                  s (Zpos mz) ez loc_Exact ltac:(lia)) as Hlow.
    cbn [Zdigits2] in Hfin, Hlow. unfold F64.prec, F64.emax in Hfin, Hlow.
    specialize (Hfin ltac:(lia) ltac:(lia)). specialize (Hlow ltac:(lia)).
    by destruct (binary_round_aux _ _ _ _ _ _). }
  destruct n as [|p|p]; cbn [binary_normalize].
  - done.
  - destruct (Hround false p Hd) as [? ?]. done.
  - destruct (Hround true p Hd) as [? ?]. done.
Qed.

(** The quotient of two 64-bit integers does not overflow. *)
Lemma F64_div_raw_int64 (x y : Z) :
  - 2 ^ 63 <= x < 2 ^ 63 -> y <> 0 ->
  F64.is_inf (F64.div (raw_of_Z x) (raw_of_Z y)) = false.
Proof.
  intros Hx Hy. pose proof (Zdigits2_int64 x Hx) as Hd.
  assert (forall sx mx sy my,
             Zpos (digits2_pos mx) <= 64 ->
             F64.is_inf (F64.div (S754_finite sx mx 0) (S754_finite sy my 0)) = false)
    as Hdiv.
  { intros sx mx sy my Hmx.
    pose proof (SFdiv_finite_finite F64.prec F64.emax F64_prec_pos F64_prec_emax
                  sx mx 0 sy my 0) as Hfin.
    unfold F64.emax in Hfin at 1. specialize (Hfin ltac:(lia)).
    unfold F64.div. by destruct (SFdiv _ _ _ _). }
  destruct y as [|r|r]; [lia| |]; (destruct x as [|p|p]; cbn [raw_of_Z];
    [reflexivity|by apply Hdiv|by apply Hdiv]).
Qed.

Lemma py_truediv_returns (a b : PyObject) :
  numeric a = true -> numeric b = true ->
  fits_int64 a = true -> fits_int64 b = true ->
  zero_price b = false ->
  exists q, py_truediv a b = Ok q.
Proof.
  intros Hna Hnb Hfa Hfb Hz.
  destruct a as [| |n|x], b as [| |m|y]; try discriminate; cbn [py_truediv].
  - cbn in Hfa, Hz. rewrite Hz.
    rewrite F64_div_raw_int64 by lia. eauto.
  - cbn [as_double]. cbn in Hfa, Hz.
    destruct (F64_of_Z_int64 n ltac:(lia)) as [-> _]. cbn [result_bind].
    rewrite Hz. eauto.
  - cbn [as_double result_bind]. cbn in Hfb, Hz.
    destruct (F64_of_Z_int64 m ltac:(lia)) as [-> Hnz]. cbn [result_bind].
    rewrite Hnz by lia. eauto.
  - cbn [as_double result_bind]. cbn in Hz. rewrite Hz. eauto.
Qed.

(** When no valid row has a zero [Price_B] and the integers fit 64 bits,
    every division returns. *)
Lemma ratios_return (price_a price_b : Series) :
  Forall (fun rw => fits_int64 rw.1 = true /\ fits_int64 rw.2 = true /\
                    zero_price rw.2 = false)
    (valid_rows price_a price_b) ->
  exists rs, ratios price_a price_b (valid_rows price_a price_b) = Ok rs.
Proof.
  intros Hok. unfold ratios.
  destruct (result_mapM_errors (ratio (is_object price_a || is_object price_b))
              (fun _ => False) (valid_rows price_a price_b)) as [Hrs | (e & _ & [])];
    [|exact Hrs].
  pose proof (valid_rows_valid price_a price_b) as Hvalid.
  apply Forall_forall. intros rw Hin. left.
  destruct (proj1 (Forall_forall _ _) Hok rw Hin) as (Hfa & Hfb & Hz).
  pose proof (proj1 (Forall_forall _ _) Hvalid rw Hin) as Hv.
  unfold valid_row in Hv. apply andb_true_iff in Hv as [Hva Hvb].
  apply andb_true_iff in Hva as [_ Hna]. apply andb_true_iff in Hvb as [_ Hnb].
  unfold ratio. destruct (is_object price_a || is_object price_b); [|eauto].
  by apply py_truediv_returns.
Qed.





Lemma wf_zero_price_b_object : wf_frame Tables.zero_price_b_object.
Proof. apply wf_frame_decide. vm_compute. reflexivity. Qed.

(** Outside the assumption of the specification: a zero [Price_B] in a
    table whose [Price_A] column holds a string next to its numbers. *)
Example zero_price_b_object_raises :
  Tests.run Tables.zero_price_b_object = Raise ZeroDivisionError.
Proof. vm_compute. reflexivity. Qed.

Lemma wf_valid_data : wf_frame Tests.valid_data.
Proof. apply wf_frame_decide. vm_compute. reflexivity. Defined.


(* ===================================================================== *)
(** ** The mean of the ratios *)
(* ===================================================================== *)




(** With at least one valid row and no failing division, the call
    returns the pandas mean of the ratios of the valid rows: the entries
    that are NaN are skipped. *)
Lemma mean_skips_nan
    (currency_a currency_b : string) (price_data : ref) (σ : store) (df : DataFrame)
    (price_a price_b : Series) (rs : list float64) :
  σ !! price_data = Some df ->
  wf_frame df ->
  columns df !! "Price_A" = Some price_a ->
  columns df !! "Price_B" = Some price_b ->
  valid_rows price_a price_b <> [] ->
  ratios price_a price_b (valid_rows price_a price_b) = Ok rs ->
  (calculate_ppp (PyStr currency_a) (PyStr currency_b) price_data σ).1
  = Ok (nanmean (is_object price_a || is_object price_b) rs).
Proof.
  intros Hr Hwf Ha Hb Hne Hrs.
  rewrite (calculate_ppp_rows _ _ _ _ _ _ _ Hr Hwf Ha Hb).
  unfold ppp_of_rows. unfold ratios in Hrs.
  destruct (valid_rows price_a price_b) as [|rw rws]; [done|].
  by rewrite Hrs.
Qed.

Lemma wf_zero_over_zero : wf_frame Tables.zero_over_zero.
Proof. apply wf_frame_decide. vm_compute. reflexivity. Qed.

(** A row [(0, 0)] is skipped by the mean. *)
Example zero_over_zero_result :
  Tests.run Tables.zero_over_zero = Ok (F64.of_Z 10).
Proof. vm_compute. reflexivity. Qed.




(** Ten ratios of one tenth: NumPy's pairwise sum of the ten is exactly
    1, and the call returns exactly the double next to one tenth.  Added
    from left to right the ten ratios give a sum below 1. *)
Example ten_tenths_result :
  Tests.run Tables.ten_tenths = Ok (S754_finite false 7205759403792794 (-56)) /\
  F64.div (foldl F64.add F64.zero (replicate 10 (F64.div (F64.of_Z 1) (F64.of_Z 10))))
          (F64.of_Z 10)
  = S754_finite false 7205759403792793 (-56).
Proof. split; vm_compute; reflexivity. Qed.




(* ===================================================================== *)
(** ** Which rows count *)
(* ===================================================================== *)

Lemma wf_non_numeric_prices : wf_frame Tests.non_numeric_prices.
Proof. apply wf_frame_decide. vm_compute. reflexivity. Defined.


(* ===================================================================== *)
(** ** Finiteness of the result *)
(* ===================================================================== *)

Lemma wf_zero_price_b : wf_frame Tables.zero_price_b.
Proof. apply wf_frame_decide. vm_compute. reflexivity. Qed.

(** Outside the assumption of the specification: a zero [Price_B]. *)
Example zero_price_b_result : Tests.run Tables.zero_price_b = Ok F64.pinf.
Proof. vm_compute. reflexivity. Qed.






(* ===================================================================== *)
(** * Further properties of [calculate_ppp] *)
(* ===================================================================== *)

(* ===================================================================== *)
(** ** Only the two price columns matter *)
(* ===================================================================== *)

(** X1: the outcome depends on the [Price_A] and [Price_B] columns only;
    the other columns and the row labels are ignored. *)
Theorem other_columns_ignored
    (currency_a currency_b : string)
    (price_data price_data' : ref) (σ σ' : store) (df df' : DataFrame)
    (price_a price_b : Series) :
  σ !! price_data = Some df ->
  σ' !! price_data' = Some df' ->
  wf_frame df ->
  wf_frame df' ->
  columns df !! "Price_A" = Some price_a ->
  columns df !! "Price_B" = Some price_b ->
  columns df' !! "Price_A" = Some price_a ->
  columns df' !! "Price_B" = Some price_b ->
  (calculate_ppp (PyStr currency_a) (PyStr currency_b) price_data' σ').1
  = (calculate_ppp (PyStr currency_a) (PyStr currency_b) price_data σ).1.
Proof.
  intros Hr Hr' Hwf Hwf' Ha Hb Ha' Hb'.
  rewrite (calculate_ppp_rows _ _ _ _ _ _ _ Hr Hwf Ha Hb).
  by rewrite (calculate_ppp_rows _ _ _ _ _ _ _ Hr' Hwf' Ha' Hb').
Qed.

Lemma other_columns_ignored_witness :
  ({[ Tests.price_data := Tests.valid_data ]} : store) !! Tests.price_data
    = Some Tests.valid_data /\
  ({[ 5%positive := MoreTables.valid_data_bare ]} : store) !! 5%positive
    = Some MoreTables.valid_data_bare /\
  wf_frame Tests.valid_data /\
  wf_frame MoreTables.valid_data_bare /\
  columns Tests.valid_data !! "Price_A" = Some (Int64Series [100; 200; 150]) /\
  columns Tests.valid_data !! "Price_B" = Some (Int64Series [10; 20; 15]) /\
  columns MoreTables.valid_data_bare !! "Price_A" = Some (Int64Series [100; 200; 150]) /\
  columns MoreTables.valid_data_bare !! "Price_B" = Some (Int64Series [10; 20; 15]) /\
  (calculate_ppp (PyStr "USD") (PyStr "EUR") 5%positive
     {[ 5%positive := MoreTables.valid_data_bare ]}).1
  = (calculate_ppp (PyStr "USD") (PyStr "EUR") Tests.price_data
       {[ Tests.price_data := Tests.valid_data ]}).1.
Proof.
  assert (Hwf' : wf_frame MoreTables.valid_data_bare)
    by (apply wf_frame_decide; vm_compute; reflexivity).
  assert (Hr' : ({[ 5%positive := MoreTables.valid_data_bare ]} : store) !! 5%positive
                = Some MoreTables.valid_data_bare)
    by apply lookup_singleton_eq.
  split; [apply store_lookup_price_data|]. split; [exact Hr'|].
  split; [apply wf_valid_data|]. split; [exact Hwf'|].
  split; [reflexivity|]. split; [reflexivity|].
  split; [reflexivity|]. split; [reflexivity|].
  exact (other_columns_ignored "USD" "EUR" Tests.price_data 5%positive _ _
           Tests.valid_data MoreTables.valid_data_bare
           (Int64Series [100; 200; 150]) (Int64Series [10; 20; 15])
           (store_lookup_price_data _) Hr' wf_valid_data Hwf'
           eq_refl eq_refl eq_refl eq_refl).
Defined.

(* ===================================================================== *)
(** ** Cleaning the table beforehand *)
(* ===================================================================== *)

Lemma wf_frame_select (df : DataFrame) (mask : list bool) :
  wf_frame df -> wf_frame (DataFrame_select df mask).
Proof.
  unfold wf_frame. cbn [columns index DataFrame_select]. intros Hwf.
  apply map_Forall_fmap. eapply map_Forall_impl; [exact Hwf|].
  intros name s Hlen. cbn. unfold Series_len in *.
  rewrite values_getitem_mask. by apply length_select.
Qed.

Lemma valid_rows_select (price_a price_b : Series) :
  let mask := valid_row <$> rows price_a price_b in
  valid_rows (Series_getitem_mask price_a mask) (Series_getitem_mask price_b mask)
  = valid_rows price_a price_b.
Proof.
  intros mask. unfold valid_rows at 1, rows at 1.
  rewrite !values_getitem_mask, <- select_zip. fold (rows price_a price_b).
  subst mask. rewrite select_fmap_mask, filter_filter_andb.
  apply filter_ext_bool. intros rw. apply andb_diag.
Qed.

(** X2: dropping the rows that are not valid before the call (boolean
    indexing with the validity mask) does not change the outcome. *)
Theorem cleaning_beforehand_is_harmless
    (currency_a currency_b : string)
    (price_data price_data' : ref) (σ σ' : store) (df : DataFrame)
    (price_a price_b : Series) :
  σ !! price_data = Some df ->
  wf_frame df ->
  columns df !! "Price_A" = Some price_a ->
  columns df !! "Price_B" = Some price_b ->
  σ' !! price_data'
    = Some (DataFrame_select df (valid_row <$> rows price_a price_b)) ->
  (calculate_ppp (PyStr currency_a) (PyStr currency_b) price_data' σ').1
  = (calculate_ppp (PyStr currency_a) (PyStr currency_b) price_data σ).1.
Proof.
  intros Hr Hwf Ha Hb Hr'.
  rewrite (calculate_ppp_rows _ _ _ _ _ _ _ Hr Hwf Ha Hb).
  rewrite (calculate_ppp_rows _ _ _ _ _ _ _ Hr'
             (wf_frame_select _ _ Hwf)
             (columns_select _ _ _ _ Ha) (columns_select _ _ _ _ Hb)).
  by rewrite !is_object_getitem_mask, valid_rows_select.
Qed.

Lemma cleaning_beforehand_is_harmless_witness :
  ({[ Tests.price_data := Tests.non_numeric_prices ]} : store) !! Tests.price_data
    = Some Tests.non_numeric_prices /\
  wf_frame Tests.non_numeric_prices /\
  columns Tests.non_numeric_prices !! "Price_A"
    = Some (ObjectSeries [PyInt 100; PyStr "a"; PyInt 150]) /\
  columns Tests.non_numeric_prices !! "Price_B" = Some (Int64Series [10; 20; 15]) /\
  ({[ 5%positive := MoreTables.non_numeric_prices_cleaned ]} : store) !! 5%positive
    = Some (DataFrame_select Tests.non_numeric_prices
              (valid_row <$> rows (ObjectSeries [PyInt 100; PyStr "a"; PyInt 150])
                                  (Int64Series [10; 20; 15]))) /\
  (calculate_ppp (PyStr "USD") (PyStr "EUR") 5%positive
     {[ 5%positive := MoreTables.non_numeric_prices_cleaned ]}).1
  = (calculate_ppp (PyStr "USD") (PyStr "EUR") Tests.price_data
       {[ Tests.price_data := Tests.non_numeric_prices ]}).1.
Proof.
  assert (Hr' : ({[ 5%positive := MoreTables.non_numeric_prices_cleaned ]} : store)
                  !! 5%positive
                = Some (DataFrame_select Tests.non_numeric_prices
                          (valid_row <$> rows (ObjectSeries [PyInt 100; PyStr "a"; PyInt 150])
                                              (Int64Series [10; 20; 15]))))
    by apply lookup_singleton_eq.
  split; [apply store_lookup_price_data|]. split; [apply wf_non_numeric_prices|].
  split; [reflexivity|]. split; [reflexivity|]. split; [exact Hr'|].
  exact (cleaning_beforehand_is_harmless "USD" "EUR" Tests.price_data 5%positive _ _
           Tests.non_numeric_prices
           (ObjectSeries [PyInt 100; PyStr "a"; PyInt 150]) (Int64Series [10; 20; 15])
           (store_lookup_price_data _) wf_non_numeric_prices eq_refl eq_refl Hr').
Defined.

(* ===================================================================== *)
(** ** Signs *)
(* ===================================================================== *)

Section rounding_sign.
Variables prec emax : Z.

(** A rounding keeps the sign it is given. *)
Lemma binary_round_aux_sign (sx : bool) (m e : Z) (l : location) :
  0 <= m ->
  match binary_round_aux prec emax sx m e l with
  | S754_zero s | S754_infinity s | S754_finite s _ _ => s = sx
  | S754_nan => False
  end.
Proof.
  intros Hm.
  destruct (binary_round_aux_spec prec emax sx m e l Hm)
    as (m1 & e1 & m2 & m3 & e3 & _ & _ & _ & _ & _ & Hm3 & _ & ->).
  destruct m3 as [|p|p]; [done| |lia].
  by destruct (e3 <=? emax - prec).
Qed.

Lemma binary_round_sign (sx : bool) (mx : positive) (ex : Z) :
  match binary_round prec emax sx mx ex with
  | S754_zero s | S754_infinity s | S754_finite s _ _ => s = sx
  | S754_nan => False
  end.
Proof.
  unfold binary_round. destruct (shl_align _ _ _) as [mz ez].
  apply binary_round_aux_sign. lia.
Qed.

End rounding_sign.

Lemma F64_of_Z_nonneg (n : Z) : 0 <= n -> plus_number (F64.of_Z n).
Proof.
  intros Hn. unfold plus_number, F64.of_Z. destruct n as [|p|p]; [done| |lia].
  cbn [binary_normalize].
  pose proof (binary_round_sign F64.prec F64.emax false p 0) as Hs.
  by destruct (binary_round _ _ _ _ _).
Qed.

Lemma F64_div_not_negative (x y : float64) :
  not_negative x -> not_negative y -> not_negative (F64.div x y).
Proof.
  destruct x as [sx|sx| |sx mx ex], y as [sy|sy| |sy my ey]; cbn;
    try done; try (by intros -> ->).
  intros -> ->. unfold F64.div. cbn [SFdiv].
  destruct (SFdiv_core_binary_bounds F64.prec F64.emax mx ex my ey)
    as (q & e' & l & -> & Hq & _).
  pose proof (binary_round_aux_sign F64.prec F64.emax (xorb false false) q e' l Hq) as Hs.
  by destruct (binary_round_aux _ _ _ _ _ _).
Qed.

Lemma F64_add_plus_number (x y : float64) :
  plus_number x -> plus_number y -> plus_number (F64.add x y).
Proof.
  unfold plus_number.
  destruct x as [sx|sx| |sx mx ex], y as [sy|sy| |sy my ey]; cbn;
    intros [Hx Hnx] [Hy Hny]; try done; subst; try done.
  unfold F64.add. cbn [SFadd cond_Zopp]. unfold binary_normalize.
  destruct (_ + _) as [|m|m] eqn:Hsum; [done| |lia].
  pose proof (binary_round_sign F64.prec F64.emax false m (Z.min ex ey)) as Hs.
  by destruct (binary_round _ _ _ _ _).
Qed.

Lemma float_sum_plus_number (object_dtype : bool) (xs : list float64) :
  Forall plus_number xs -> plus_number (float_sum object_dtype xs).
Proof.
  intros Hxs.
  apply (float_sum_closed plus_number (fun _ => False)); try done.
  apply F64_add_plus_number.
Qed.

Lemma fillna_plus_number (xs : list float64) :
  Forall not_negative xs ->
  Forall plus_number ((fun x => if F64.is_nan x then F64.zero else x) <$> xs).
Proof.
  induction 1 as [|x xs Hx _ IH]; [done|].
  rewrite fmap_cons. constructor; [|exact IH].
  destruct x; done.
Qed.

Lemma nansum_plus_number (object_dtype : bool) (xs : list float64) :
  Forall not_negative xs -> plus_number (nansum object_dtype xs).
Proof. intros Hxs. by apply float_sum_plus_number, fillna_plus_number. Qed.

Lemma nanmean_not_negative (object_dtype : bool) (xs : list float64) :
  Forall not_negative xs -> not_negative (nanmean object_dtype xs).
Proof.
  intros Hxs. unfold nanmean.
  destruct (0 <? Z.of_nat (notna_count xs)); [|done].
  apply F64_div_not_negative.
  - apply (nansum_plus_number object_dtype xs Hxs).
  - apply F64_of_Z_nonneg. lia.
Qed.

Lemma cell_double_nonneg (c : PyObject) :
  nonneg_price c = true -> plus_number (cell_double c).
Proof.
  destruct c as [| |n|[[]|[]| |[] m e]]; try discriminate; intros Hc; try done.
  cbn. apply F64_of_Z_nonneg. cbn in Hc. lia.
Qed.

Lemma raw_of_Z_nonneg (n : Z) : 0 <= n -> not_negative (raw_of_Z n).
Proof. destruct n; cbn; try done. Qed.

Lemma as_double_nonneg (c : PyObject) (x : float64) :
  nonneg_price c = true -> as_double c = Ok x -> not_negative x.
Proof.
  destruct c as [| |n|y]; try discriminate; cbn; intros Hc.
  - destruct (F64.is_inf (F64.of_Z n)); [discriminate|]. intros [= <-].
    apply F64_of_Z_nonneg. lia.
  - intros [= <-]. by destruct y as [[]|[]| |[] m e].
Qed.

Lemma py_truediv_nonneg (a b : PyObject) (q : float64) :
  nonneg_price a = true -> nonneg_price b = true ->
  py_truediv a b = Ok q -> not_negative q.
Proof.
  intros Ha Hb.
  destruct a as [| |n|x], b as [| |m|y]; try discriminate; cbn [py_truediv].
  - destruct (m =? 0); [discriminate|].
    destruct (F64.is_inf _); [discriminate|]. intros [= <-].
    cbn in Ha, Hb. apply F64_div_not_negative; apply raw_of_Z_nonneg; lia.
  - destruct (as_double (PyInt n)) as [x'|] eqn:Hx; [|discriminate].
    cbn [result_bind as_double].
    destruct (F64.is_zero y); [discriminate|]. intros [= <-].
    apply F64_div_not_negative.
    + exact (as_double_nonneg (PyInt n) x' Ha Hx).
    + exact (as_double_nonneg (PyFloat y) y Hb eq_refl).
  - cbn [as_double result_bind].
    destruct (F64.is_inf (F64.of_Z m)) eqn:Hinf; [discriminate|].
    cbn [result_bind].
    destruct (F64.is_zero _); [discriminate|]. intros [= <-].
    apply F64_div_not_negative.
    + exact (as_double_nonneg (PyFloat x) x Ha eq_refl).
    + apply F64_of_Z_nonneg. cbn in Hb. lia.
  - cbn [as_double result_bind].
    destruct (F64.is_zero y); [discriminate|]. intros [= <-].
    apply F64_div_not_negative.
    + exact (as_double_nonneg (PyFloat x) x Ha eq_refl).
    + exact (as_double_nonneg (PyFloat y) y Hb eq_refl).
Qed.

Lemma ratio_nonneg (object_dtype : bool) (rw : row) (q : float64) :
  nonneg_price rw.1 = true -> nonneg_price rw.2 = true ->
  ratio object_dtype rw = Ok q -> not_negative q.
Proof.
  intros Ha Hb. unfold ratio. destruct object_dtype.
  - by apply py_truediv_nonneg.
  - intros [= <-]. apply F64_div_not_negative; by apply cell_double_nonneg.
Qed.

Lemma ratios_nonneg (object_dtype : bool) (rws : list row) (rs : list float64) :
  Forall (fun rw => nonneg_price rw.1 = true /\ nonneg_price rw.2 = true) rws ->
  result_mapM (ratio object_dtype) rws = Ok rs ->
  Forall not_negative rs.
Proof.
  intros Hrws. revert rs. induction Hrws as [|rw rws [Ha Hb] _ IH]; intros rs; cbn.
  - by intros [= <-].
  - destruct (ratio object_dtype rw) as [q|e] eqn:Hq; [|discriminate]. cbn.
    destruct (result_mapM (ratio object_dtype) rws) as [qs|e]; [|discriminate]. cbn.
    intros [= <-]. constructor; [by eapply ratio_nonneg|by apply IH].
Qed.

(** X3: with prices that are not negative, a returned value is never
    negative (and never [-0.0]). *)
Theorem nonneg_prices_nonneg_result
    (currency_a currency_b : string) (price_data : ref) (σ : store) (df : DataFrame)
    (price_a price_b : Series) (rs : list float64) :
  σ !! price_data = Some df ->
  wf_frame df ->
  columns df !! "Price_A" = Some price_a ->
  columns df !! "Price_B" = Some price_b ->
  valid_rows price_a price_b <> [] ->
  Forall (fun rw => nonneg_price rw.1 = true /\ nonneg_price rw.2 = true)
    (valid_rows price_a price_b) ->
  ratios price_a price_b (valid_rows price_a price_b) = Ok rs ->
  exists v,
    (calculate_ppp (PyStr currency_a) (PyStr currency_b) price_data σ).1 = Ok v /\
    not_negative v.
Proof.
  intros Hr Hwf Ha Hb Hne Hpos Hrs.
  exists (nanmean (is_object price_a || is_object price_b) rs). split.
  - by apply mean_skips_nan with (df := df).
  - apply nanmean_not_negative. by eapply ratios_nonneg.
Qed.

Lemma nonneg_prices_nonneg_result_witness :
  ({[ Tests.price_data := Tests.valid_data ]} : store) !! Tests.price_data
    = Some Tests.valid_data /\
  wf_frame Tests.valid_data /\
  columns Tests.valid_data !! "Price_A" = Some (Int64Series [100; 200; 150]) /\
  columns Tests.valid_data !! "Price_B" = Some (Int64Series [10; 20; 15]) /\
  valid_rows (Int64Series [100; 200; 150]) (Int64Series [10; 20; 15]) <> [] /\
  Forall (fun rw => nonneg_price rw.1 = true /\ nonneg_price rw.2 = true)
    (valid_rows (Int64Series [100; 200; 150]) (Int64Series [10; 20; 15])) /\
  ratios (Int64Series [100; 200; 150]) (Int64Series [10; 20; 15])
    (valid_rows (Int64Series [100; 200; 150]) (Int64Series [10; 20; 15]))
    = Ok [F64.of_Z 10; F64.of_Z 10; F64.of_Z 10] /\
  exists v,
    (calculate_ppp (PyStr "USD") (PyStr "EUR") Tests.price_data
       {[ Tests.price_data := Tests.valid_data ]}).1 = Ok v /\
    not_negative v.
Proof.
  assert (Hne : valid_rows (Int64Series [100; 200; 150]) (Int64Series [10; 20; 15]) <> [])
    by (vm_compute; discriminate).
  assert (Hpos : Forall (fun rw => nonneg_price rw.1 = true /\ nonneg_price rw.2 = true)
                   (valid_rows (Int64Series [100; 200; 150]) (Int64Series [10; 20; 15])))
    by (vm_compute; repeat constructor).
  assert (Hrs : ratios (Int64Series [100; 200; 150]) (Int64Series [10; 20; 15])
                  (valid_rows (Int64Series [100; 200; 150]) (Int64Series [10; 20; 15]))
                = Ok [F64.of_Z 10; F64.of_Z 10; F64.of_Z 10])
    by (vm_compute; reflexivity).
  split; [apply store_lookup_price_data|]. split; [apply wf_valid_data|].
  split; [reflexivity|]. split; [reflexivity|].
  split; [exact Hne|]. split; [exact Hpos|]. split; [exact Hrs|].
  exact (nonneg_prices_nonneg_result "USD" "EUR" Tests.price_data _ Tests.valid_data
           (Int64Series [100; 200; 150]) (Int64Series [10; 20; 15])
           [F64.of_Z 10; F64.of_Z 10; F64.of_Z 10]
           (store_lookup_price_data _) wf_valid_data eq_refl eq_refl Hne Hpos Hrs).
Defined.

(* ===================================================================== *)
(** ** Zero prices *)
(* ===================================================================== *)

Lemma F64_of_Z_positive (n : Z) :
  0 < n ->
  match F64.of_Z n with
  | S754_finite s _ _ | S754_infinity s => s = false
  | _ => False
  end.
Proof.
  intros Hn. destruct (Z.eq_dec n 1) as [->|Hn1]; [by rewrite F64_of_Z_1|].
  pose proof (binary_normalize_ge_2 F64.prec F64.emax F64_prec_pos F64_prec_emax
                n ltac:(lia)) as Hy.
  unfold F64.of_Z. destruct (binary_normalize _ _ _ _ _); try done. by destruct Hy.
Qed.

Lemma cell_double_positive (c : PyObject) :
  positive_price c = true ->
  match cell_double c with
  | S754_finite s _ _ | S754_infinity s => s = false
  | _ => False
  end.
Proof.
  destruct c as [| |n|[[]|[]| |[] m e]]; try discriminate; intros Hc; try done.
  cbn. apply F64_of_Z_positive. cbn in Hc. lia.
Qed.

Lemma cell_double_zero (c : PyObject) :
  zero_price c = true -> F64.is_zero (cell_double c) = true.
Proof.
  destruct c as [| |n|x]; try discriminate; cbn; [|done].
  intros Hn. by replace n with 0 by lia.
Qed.

(** A positive number divided by a zero that is not negative is plus
    infinity. *)
Lemma F64_div_positive_zero (x y : float64) :
  match x with S754_finite s _ _ | S754_infinity s => s = false | _ => False end ->
  F64.is_zero y = true -> not_negative y ->
  F64.div x y = F64.pinf.
Proof. destruct x as [| [] | | [] ? ?], y as [[]| | |]; done. Qed.

Lemma F64_add_pinf_l (y : float64) : plus_number y -> F64.add F64.pinf y = F64.pinf.
Proof. destruct y as [[]|[]| |[] ? ?]; intros [? ?]; done. Qed.

Lemma F64_add_pinf_r (x : float64) : plus_number x -> F64.add x F64.pinf = F64.pinf.
Proof. destruct x as [[]|[]| |[] ? ?]; intros [? ?]; done. Qed.

(** A sum of numbers that are not negative, one of them plus infinity,
    is plus infinity. *)
Lemma float_sum_pinf (object_dtype : bool) (xs : list float64) :
  Forall plus_number xs -> Exists (fun x => x = F64.pinf) xs ->
  float_sum object_dtype xs = F64.pinf.
Proof.
  intros Hxs Hex.
  apply (float_sum_closed plus_number (fun x => x = F64.pinf)); try done.
  - apply F64_add_plus_number.
  - intros x y -> Hy. by apply F64_add_pinf_l.
  - intros x y Hx ->. by apply F64_add_pinf_r.
Qed.

Lemma nansum_pinf (object_dtype : bool) (xs : list float64) :
  Forall not_negative xs -> Exists (fun x => x = F64.pinf) xs ->
  nansum object_dtype xs = F64.pinf.
Proof.
  intros Hxs Hex. apply float_sum_pinf.
  - by apply fillna_plus_number.
  - clear Hxs. induction Hex as [x xs ->|x xs _ IH]; rewrite fmap_cons.
    + by apply Exists_cons_hd.
    + by apply Exists_cons_tl.
Qed.

(** In columns of numeric dtype the ratios are always defined. *)
Lemma ratios_numeric (price_a price_b : Series) (rws : list row) :
  is_object price_a || is_object price_b = false ->
  ratios price_a price_b rws
  = Ok ((fun rw => F64.div (cell_double rw.1) (cell_double rw.2)) <$> rws).
Proof. intros Hobj. unfold ratios, ratio. rewrite Hobj. apply result_mapM_pure. Qed.

(** X4: with numeric dtypes and prices that are not negative, one valid row
    with a positive [Price_A] and a zero [Price_B] makes the result
    infinite or NaN. *)
Theorem zero_price_b_not_finite
    (currency_a currency_b : string) (price_data : ref) (σ : store) (df : DataFrame)
    (price_a price_b : Series) :
  σ !! price_data = Some df ->
  wf_frame df ->
  columns df !! "Price_A" = Some price_a ->
  columns df !! "Price_B" = Some price_b ->
  is_object price_a || is_object price_b = false ->
  Forall (fun rw => nonneg_price rw.1 = true /\ nonneg_price rw.2 = true)
    (valid_rows price_a price_b) ->
  Exists (fun rw => positive_price rw.1 = true /\ zero_price rw.2 = true)
    (valid_rows price_a price_b) ->
  exists v,
    (calculate_ppp (PyStr currency_a) (PyStr currency_b) price_data σ).1 = Ok v /\
    F64.is_finite v = false.
Proof.
  intros Hr Hwf Ha Hb Hobj Hpos Hex.
  pose proof (ratios_numeric price_a price_b (valid_rows price_a price_b) Hobj) as Hrs.
  set (rs := (fun rw : row => F64.div (cell_double rw.1) (cell_double rw.2))
               <$> valid_rows price_a price_b) in Hrs.
  assert (valid_rows price_a price_b <> []) as Hne
    by (intros Hnil; rewrite Hnil in Hex; inversion Hex).
  exists (nanmean false rs). split.
  - rewrite <- Hobj. by apply mean_skips_nan with (df := df).
  - assert (Forall not_negative rs) as Hnn by (by eapply ratios_nonneg).
    assert (nansum false rs = F64.pinf) as Hsum.
    { apply nansum_pinf; [done|]. subst rs.
      apply Exists_exists in Hex as (rw & Hin & Hp & Hz).
      destruct (proj1 (Forall_forall _ _) Hpos rw Hin) as [_ Hb2].
      apply Exists_exists. exists (F64.div (cell_double rw.1) (cell_double rw.2)).
      split; [apply list_elem_of_fmap; eauto|].
      apply F64_div_positive_zero;
        [by apply cell_double_positive|by apply cell_double_zero|].
      by apply cell_double_nonneg. }
    destruct (F64.is_finite (nanmean false rs)) eqn:Hfin; [|done].
    apply nanmean_finite_iff in Hfin as [_ Hfin];
      [|by eapply ratios_in_range].
    by rewrite Hsum in Hfin.
Qed.

Lemma zero_price_b_not_finite_witness :
  ({[ Tests.price_data := Tables.zero_price_b ]} : store) !! Tests.price_data
    = Some Tables.zero_price_b /\
  wf_frame Tables.zero_price_b /\
  columns Tables.zero_price_b !! "Price_A" = Some (Int64Series [1]) /\
  columns Tables.zero_price_b !! "Price_B" = Some (Int64Series [0]) /\
  is_object (Int64Series [1]) || is_object (Int64Series [0]) = false /\
  Forall (fun rw => nonneg_price rw.1 = true /\ nonneg_price rw.2 = true)
    (valid_rows (Int64Series [1]) (Int64Series [0])) /\
  Exists (fun rw => positive_price rw.1 = true /\ zero_price rw.2 = true)
    (valid_rows (Int64Series [1]) (Int64Series [0])) /\
  exists v,
    (calculate_ppp (PyStr "USD") (PyStr "EUR") Tests.price_data
       {[ Tests.price_data := Tables.zero_price_b ]}).1 = Ok v /\
    F64.is_finite v = false.
Proof.
  assert (Hwf : wf_frame Tables.zero_price_b)
    by (apply wf_frame_decide; vm_compute; reflexivity).
  assert (Hpos : Forall (fun rw => nonneg_price rw.1 = true /\ nonneg_price rw.2 = true)
                   (valid_rows (Int64Series [1]) (Int64Series [0])))
    by (vm_compute; repeat constructor).
  assert (Hex : Exists (fun rw => positive_price rw.1 = true /\ zero_price rw.2 = true)
                  (valid_rows (Int64Series [1]) (Int64Series [0])))
    by (vm_compute; left; split; reflexivity).
  split; [apply store_lookup_price_data|]. split; [exact Hwf|].
  split; [reflexivity|]. split; [reflexivity|]. split; [reflexivity|].
  split; [exact Hpos|]. split; [exact Hex|].
  exact (zero_price_b_not_finite "USD" "EUR" Tests.price_data _ Tables.zero_price_b
           (Int64Series [1]) (Int64Series [0])
           (store_lookup_price_data _) Hwf eq_refl eq_refl eq_refl Hpos Hex).
Defined.

(** X5: with numeric dtypes, a table whose valid rows all have a zero price
    in both currencies is not rejected: the call returns NaN. *)
Theorem zero_over_zero_rows_give_nan
    (currency_a currency_b : string) (price_data : ref) (σ : store) (df : DataFrame)
    (price_a price_b : Series) :
  σ !! price_data = Some df ->
  wf_frame df ->
  columns df !! "Price_A" = Some price_a ->
  columns df !! "Price_B" = Some price_b ->
  is_object price_a || is_object price_b = false ->
  valid_rows price_a price_b <> [] ->
  Forall (fun rw => zero_price rw.1 = true /\ zero_price rw.2 = true)
    (valid_rows price_a price_b) ->
  (calculate_ppp (PyStr currency_a) (PyStr currency_b) price_data σ).1 = Ok F64.nan.
Proof.
  intros Hr Hwf Ha Hb Hobj Hne Hzero.
  pose proof (ratios_numeric price_a price_b (valid_rows price_a price_b) Hobj) as Hrs.
  rewrite (mean_skips_nan _ _ _ _ _ _ _ _ Hr Hwf Ha Hb Hne Hrs). f_equal.
  assert (forall rws : list row,
             Forall (fun rw => zero_price rw.1 = true /\ zero_price rw.2 = true) rws ->
             notna_count ((fun rw => F64.div (cell_double rw.1) (cell_double rw.2)) <$> rws)
             = 0%nat) as Hcount.
  { induction 1 as [|rw rws [Hz1 Hz2] _ IH]; [done|].
    unfold notna_count in *. cbn.
    apply cell_double_zero in Hz1, Hz2.
    destruct (cell_double rw.1), (cell_double rw.2); try discriminate. exact IH. }
  unfold nanmean. by rewrite (Hcount _ Hzero).
Qed.

Lemma zero_over_zero_rows_give_nan_witness :
  ({[ Tests.price_data := MoreTables.all_free ]} : store) !! Tests.price_data
    = Some MoreTables.all_free /\
  wf_frame MoreTables.all_free /\
  columns MoreTables.all_free !! "Price_A" = Some (Int64Series [0; 0]) /\
  columns MoreTables.all_free !! "Price_B"
    = Some (Float64Series [F64.zero; F64.zero]) /\
  is_object (Int64Series [0; 0]) || is_object (Float64Series [F64.zero; F64.zero])
    = false /\
  valid_rows (Int64Series [0; 0]) (Float64Series [F64.zero; F64.zero]) <> [] /\
  Forall (fun rw => zero_price rw.1 = true /\ zero_price rw.2 = true)
    (valid_rows (Int64Series [0; 0]) (Float64Series [F64.zero; F64.zero])) /\
  (calculate_ppp (PyStr "USD") (PyStr "EUR") Tests.price_data
     {[ Tests.price_data := MoreTables.all_free ]}).1 = Ok F64.nan.
Proof.
  assert (Hwf : wf_frame MoreTables.all_free)
    by (apply wf_frame_decide; vm_compute; reflexivity).
  assert (Hne : valid_rows (Int64Series [0; 0]) (Float64Series [F64.zero; F64.zero]) <> [])
    by (vm_compute; discriminate).
  assert (Hz : Forall (fun rw => zero_price rw.1 = true /\ zero_price rw.2 = true)
                 (valid_rows (Int64Series [0; 0]) (Float64Series [F64.zero; F64.zero])))
    by (vm_compute; repeat constructor).
  split; [apply store_lookup_price_data|]. split; [exact Hwf|].
  split; [reflexivity|]. split; [reflexivity|]. split; [reflexivity|].
  split; [exact Hne|]. split; [exact Hz|].
  exact (zero_over_zero_rows_give_nan "USD" "EUR" Tests.price_data _ MoreTables.all_free
           (Int64Series [0; 0]) (Float64Series [F64.zero; F64.zero])
           (store_lookup_price_data _) Hwf eq_refl eq_refl eq_refl Hne Hz).
Defined.

(* ===================================================================== *)
(** ** Division by zero in an object column *)
(* ===================================================================== *)

Lemma result_mapM_app_raise {A B} (f : A -> result B) (pre post : list A) (x : A)
    (ys : list B) (e : exn) :
  result_mapM f pre = Ok ys -> f x = Raise e ->
  result_mapM f (pre ++ x :: post) = Raise e.
Proof.
  revert ys. induction pre as [|a pre IH]; intros ys; cbn.
  - intros _ ->. done.
  - destruct (f a) as [b|e']; [|discriminate]. cbn.
    destruct (result_mapM f pre) as [bs|e'] eqn:Hpre; [|discriminate]. cbn.
    intros _ Hx. by rewrite (IH bs eq_refl Hx).
Qed.

Lemma py_truediv_zero (a b : PyObject) (x : float64) :
  as_double a = Ok x -> zero_price b = true ->
  py_truediv a b = Raise ZeroDivisionError.
Proof.
  intros Ha Hb.
  destruct a as [| |n|x'], b as [| |m|y]; try discriminate; cbn [py_truediv].
  - cbn in Hb. by rewrite Hb.
  - rewrite Ha. cbn [result_bind as_double]. cbn in Hb. by rewrite Hb.
  - cbn in Hb. replace m with 0 by lia. done.
  - cbn [as_double result_bind]. cbn in Hb. by rewrite Hb.
Qed.

(** X6: as soon as a price column has [object] dtype, a valid row with a zero
    [Price_B] makes the call raise ZeroDivisionError, provided the rows
    before it divide without error and its [Price_A] fits a float. *)
Theorem object_zero_price_b_raises
    (currency_a currency_b : string) (price_data : ref) (σ : store) (df : DataFrame)
    (price_a price_b : Series) (pre post : list row) (rw : row)
    (qs : list float64) (x : float64) :
  σ !! price_data = Some df ->
  wf_frame df ->
  columns df !! "Price_A" = Some price_a ->
  columns df !! "Price_B" = Some price_b ->
  is_object price_a || is_object price_b = true ->
  valid_rows price_a price_b = pre ++ rw :: post ->
  ratios price_a price_b pre = Ok qs ->
  as_double rw.1 = Ok x ->
  zero_price rw.2 = true ->
  (calculate_ppp (PyStr currency_a) (PyStr currency_b) price_data σ).1
  = Raise ZeroDivisionError.
Proof.
  intros Hr Hwf Ha Hb Hobj Hrows Hpre Hx Hz.
  rewrite (calculate_ppp_rows _ _ _ _ _ _ _ Hr Hwf Ha Hb).
  rewrite Hrows. unfold ppp_of_rows.
  destruct (pre ++ rw :: post) as [|r0 rest] eqn:Happ; [by destruct pre|].
  rewrite <- Happ. unfold ratios in Hpre. rewrite Hobj in *.
  rewrite (result_mapM_app_raise _ pre post rw qs ZeroDivisionError Hpre); [done|].
  unfold ratio. by eapply py_truediv_zero.
Qed.

Lemma object_zero_price_b_raises_witness :
  ({[ Tests.price_data := Tables.zero_price_b_object ]} : store) !! Tests.price_data
    = Some Tables.zero_price_b_object /\
  wf_frame Tables.zero_price_b_object /\
  columns Tables.zero_price_b_object !! "Price_A"
    = Some (ObjectSeries [PyInt 1; PyStr "a"]) /\
  columns Tables.zero_price_b_object !! "Price_B" = Some (Int64Series [0; 2]) /\
  is_object (ObjectSeries [PyInt 1; PyStr "a"]) || is_object (Int64Series [0; 2]) = true /\
  valid_rows (ObjectSeries [PyInt 1; PyStr "a"]) (Int64Series [0; 2])
    = [] ++ (PyInt 1, PyInt 0) :: [] /\
  ratios (ObjectSeries [PyInt 1; PyStr "a"]) (Int64Series [0; 2]) [] = Ok [] /\
  as_double (PyInt 1, PyInt 0).1 = Ok (F64.of_Z 1) /\
  zero_price (PyInt 1, PyInt 0).2 = true /\
  (calculate_ppp (PyStr "USD") (PyStr "EUR") Tests.price_data
     {[ Tests.price_data := Tables.zero_price_b_object ]}).1
  = Raise ZeroDivisionError.
Proof.
  assert (Hwf : wf_frame Tables.zero_price_b_object)
    by (apply wf_frame_decide; vm_compute; reflexivity).
  assert (Hx : as_double (PyInt 1, PyInt 0).1 = Ok (F64.of_Z 1))
    by (vm_compute; reflexivity).
  split; [apply store_lookup_price_data|]. split; [exact Hwf|].
  split; [reflexivity|]. split; [reflexivity|]. split; [reflexivity|].
  split; [reflexivity|]. split; [reflexivity|]. split; [exact Hx|].
  split; [reflexivity|].
  exact (object_zero_price_b_raises "USD" "EUR" Tests.price_data _
           Tables.zero_price_b_object
           (ObjectSeries [PyInt 1; PyStr "a"]) (Int64Series [0; 2])
           [] [] (PyInt 1, PyInt 0) [] (F64.of_Z 1)
           (store_lookup_price_data _) Hwf eq_refl eq_refl eq_refl eq_refl eq_refl
           Hx eq_refl).
Defined.

(* ===================================================================== *)
(** ** Integer and float columns *)
(* ===================================================================== *)

Lemma F64_of_Z_not_nan (n : Z) : F64.is_nan (F64.of_Z n) = false.
Proof.
  unfold F64.of_Z. destruct n as [|p|p]; [done| |]; cbn [binary_normalize].
  - pose proof (binary_round_sign F64.prec F64.emax false p 0) as Hs.
    by destruct (binary_round _ _ _ _ _).
  - pose proof (binary_round_sign F64.prec F64.emax true p 0) as Hs.
    by destruct (binary_round _ _ _ _ _).
Qed.

Lemma valid_cell_numeric (s : Series) :
  is_object s = false ->
  Forall (fun c => present c && numeric c = negb (F64.is_nan (cell_double c)))
    (values s).
Proof.
  destruct s as [vs|vs|vs]; [| |discriminate]; intros _; cbn;
    apply Forall_fmap, Forall_forall; intros v _; cbn.
  - by rewrite F64_of_Z_not_nan.
  - by rewrite andb_true_r.
Qed.

Lemma Forall_zip_rows {A B} (P : A -> Prop) (Q : B -> Prop) (l : list A) (k : list B) :
  Forall P l -> Forall Q k -> Forall (fun p => P p.1 /\ Q p.2) (zip l k).
Proof.
  intros Hl. revert k. induction Hl as [|x l Hx _ IH]; intros k Hk; [done|].
  destruct Hk as [|y k Hy Hk]; [done|]. cbn. constructor; [done|by apply IH].
Qed.

Lemma filter_fmap_commute {A B} (f : A -> B) (p : A -> bool) (q : B -> bool)
    (l : list A) :
  Forall (fun x => p x = q (f x)) l ->
  f <$> List.filter p l = List.filter q (f <$> l).
Proof.
  induction 1 as [|x l Hx _ IH]; [done|].
  cbn. rewrite <- Hx. destruct (p x); cbn; by rewrite IH.
Qed.

(** The doubles of the valid rows of two numeric columns. *)
Lemma valid_rows_doubles (price_a price_b : Series) :
  is_object price_a = false -> is_object price_b = false ->
  row_doubles <$> valid_rows price_a price_b
  = List.filter both_numbers (zip (to_float64 price_a) (to_float64 price_b)).
Proof.
  intros Hoa Hob. unfold valid_rows, rows.
  rewrite (filter_fmap_commute row_doubles valid_row both_numbers).
  - f_equal. rewrite (to_float64_values _ Hoa), (to_float64_values _ Hob).
    generalize (values price_a) (values price_b).
    induction l as [|x l IH]; intros [|y k]; try done. cbn. f_equal. apply IH.
  - eapply Forall_impl;
      [exact (Forall_zip_rows _ _ _ _ (valid_cell_numeric _ Hoa) (valid_cell_numeric _ Hob))|].
    intros rw [H1 H2]. unfold valid_row, both_numbers, row_doubles. cbn [fst snd].
    by rewrite H1, H2.
Qed.

(** With numeric dtypes the outcome is a function of the doubles. *)
Lemma ppp_of_rows_doubles (rws rws' : list row) :
  row_doubles <$> rws = row_doubles <$> rws' ->
  ppp_of_rows false rws = ppp_of_rows false rws'.
Proof.
  intros Heq. unfold ppp_of_rows, ratio.
  rewrite !result_mapM_pure.
  assert ((fun rw : row => F64.div (cell_double rw.1) (cell_double rw.2)) <$> rws
          = (fun rw : row => F64.div (cell_double rw.1) (cell_double rw.2)) <$> rws') as Hdiv.
  { change (fun rw : row => F64.div (cell_double rw.1) (cell_double rw.2))
      with ((fun p : float64 * float64 => F64.div p.1 p.2) ∘ row_doubles).
    by rewrite !list_fmap_compose, Heq. }
  rewrite Hdiv. destruct rws, rws'; try done.
Qed.

(** X7: [int64] or [float64], the dtype of a numeric price column does not
    matter, only the numbers do. *)
Theorem numeric_dtype_irrelevant
    (currency_a currency_b : string)
    (price_data price_data' : ref) (σ σ' : store) (df df' : DataFrame)
    (price_a price_b price_a' price_b' : Series) :
  σ !! price_data = Some df ->
  σ' !! price_data' = Some df' ->
  wf_frame df ->
  wf_frame df' ->
  columns df !! "Price_A" = Some price_a ->
  columns df !! "Price_B" = Some price_b ->
  columns df' !! "Price_A" = Some price_a' ->
  columns df' !! "Price_B" = Some price_b' ->
  is_object price_a || is_object price_b = false ->
  is_object price_a' || is_object price_b' = false ->
  to_float64 price_a' = to_float64 price_a ->
  to_float64 price_b' = to_float64 price_b ->
  (calculate_ppp (PyStr currency_a) (PyStr currency_b) price_data' σ').1
  = (calculate_ppp (PyStr currency_a) (PyStr currency_b) price_data σ).1.
Proof.
  intros Hr Hr' Hwf Hwf' Ha Hb Ha' Hb' Hobj Hobj' Hfa Hfb.
  rewrite (calculate_ppp_rows _ _ _ _ _ _ _ Hr Hwf Ha Hb).
  rewrite (calculate_ppp_rows _ _ _ _ _ _ _ Hr' Hwf' Ha' Hb').
  rewrite Hobj, Hobj'.
  apply orb_false_elim in Hobj as [Hoa Hob], Hobj' as [Hoa' Hob'].
  apply ppp_of_rows_doubles.
  by rewrite !valid_rows_doubles, Hfa, Hfb.
Qed.

Lemma numeric_dtype_irrelevant_witness :
  ({[ Tests.price_data := Tests.valid_data ]} : store) !! Tests.price_data
    = Some Tests.valid_data /\
  ({[ 5%positive := MoreTables.valid_data_float64 ]} : store) !! 5%positive
    = Some MoreTables.valid_data_float64 /\
  wf_frame Tests.valid_data /\
  wf_frame MoreTables.valid_data_float64 /\
  columns Tests.valid_data !! "Price_A" = Some (Int64Series [100; 200; 150]) /\
  columns Tests.valid_data !! "Price_B" = Some (Int64Series [10; 20; 15]) /\
  columns MoreTables.valid_data_float64 !! "Price_A"
    = Some (Float64Series [F64.of_Z 100; F64.of_Z 200; F64.of_Z 150]) /\
  columns MoreTables.valid_data_float64 !! "Price_B"
    = Some (Float64Series [F64.of_Z 10; F64.of_Z 20; F64.of_Z 15]) /\
  is_object (Int64Series [100; 200; 150]) || is_object (Int64Series [10; 20; 15]) = false /\
  is_object (Float64Series [F64.of_Z 100; F64.of_Z 200; F64.of_Z 150])
    || is_object (Float64Series [F64.of_Z 10; F64.of_Z 20; F64.of_Z 15]) = false /\
  to_float64 (Float64Series [F64.of_Z 100; F64.of_Z 200; F64.of_Z 150])
    = to_float64 (Int64Series [100; 200; 150]) /\
  to_float64 (Float64Series [F64.of_Z 10; F64.of_Z 20; F64.of_Z 15])
    = to_float64 (Int64Series [10; 20; 15]) /\
  (calculate_ppp (PyStr "USD") (PyStr "EUR") 5%positive
     {[ 5%positive := MoreTables.valid_data_float64 ]}).1
  = (calculate_ppp (PyStr "USD") (PyStr "EUR") Tests.price_data
       {[ Tests.price_data := Tests.valid_data ]}).1.
Proof.
  assert (Hwf' : wf_frame MoreTables.valid_data_float64)
    by (apply wf_frame_decide; vm_compute; reflexivity).
  assert (Hr' : ({[ 5%positive := MoreTables.valid_data_float64 ]} : store) !! 5%positive
                = Some MoreTables.valid_data_float64)
    by apply lookup_singleton_eq.
  split; [apply store_lookup_price_data|]. split; [exact Hr'|].
  split; [apply wf_valid_data|]. split; [exact Hwf'|].
  split; [reflexivity|]. split; [reflexivity|].
  split; [reflexivity|]. split; [reflexivity|].
  split; [reflexivity|]. split; [reflexivity|].
  split; [reflexivity|]. split; [reflexivity|].
  exact (numeric_dtype_irrelevant "USD" "EUR" Tests.price_data 5%positive _ _
           Tests.valid_data MoreTables.valid_data_float64
           (Int64Series [100; 200; 150]) (Int64Series [10; 20; 15])
           (Float64Series [F64.of_Z 100; F64.of_Z 200; F64.of_Z 150])
           (Float64Series [F64.of_Z 10; F64.of_Z 20; F64.of_Z 15])
           (store_lookup_price_data _) Hr' wf_valid_data Hwf'
           eq_refl eq_refl eq_refl eq_refl eq_refl eq_refl eq_refl eq_refl).
Defined.

(* ===================================================================== *)
(** ** Normal forms *)
(* ===================================================================== *)

Section rounding_canonical.
Variables prec emax : Z.
Hypothesis Hprec : 0 < prec.

(** A rounding of a mantissa with enough digits returns a number in
    normal form. *)
Lemma binary_round_aux_canonical (sx : bool) (m e : Z) (l : location) :
  0 <= m ->
  e <= fexp prec emax (Zdigits2 m + e) ->
  match binary_round_aux prec emax sx m e l with
  | S754_finite _ p e3 =>
      fexp prec emax (Zpos (digits2_pos p) + e3) = e3 /\ e3 <= emax - prec
  | _ => True
  end.
Proof.
  intros Hm He.
  destruct (binary_round_aux_spec prec emax sx m e l Hm)
    as (m1 & e1 & m2 & m3 & e3 & He1 & Hm1 & Hd1 & Hm2 & He3 & Hm3 & Hd3 & ->).
  destruct m3 as [|p|p]; [done| |done].
  destruct (Z.leb_spec e3 (emax - prec)); [|done].
  split; [|done]. cbn [Zdigits2] in Hd3.
  assert (Zdigits2 m1 <= Zdigits2 m2) as Hd2 by (apply Zdigits2_mono; lia).
  pose proof (Zdigits2_nonneg m) as Hdm.
  rewrite !fexp_unfold in *. lia.
Qed.

(** The quotient mantissa of the division has enough digits. *)
Lemma SFdiv_core_binary_digits (mx : positive) (ex : Z) (my : positive) (ey : Z) :
  exists q e' l,
    SFdiv_core_binary prec emax (Zpos mx) ex (Zpos my) ey = (q, e', l) /\
    0 <= q /\ e' <= fexp prec emax (Zdigits2 q + e').
Proof.
  unfold SFdiv_core_binary. cbn [Zdigits2].
  set (d1 := Zpos (digits2_pos mx)). set (d2 := Zpos (digits2_pos my)).
  set (T := d1 + ex - (d2 + ey)).
  set (e' := Z.min (fexp prec emax T) (ex - ey)).
  set (s := ex - ey - e').
  assert (0 <= s) as Hs by (subst s e'; lia).
  set (m' := match s with Zpos _ => Z.shiftl (Zpos mx) s | Z0 => Zpos mx | Zneg _ => 0 end).
  assert (m' = Zpos mx * 2 ^ s) as Hm'.
  { subst m'. destruct s as [|k|k] eqn:Hk; [lia| |lia].
    by rewrite Z.shiftl_mul_pow2. }
  pose proof (Z_div_mod m' (Zpos my) ltac:(lia)) as Hdiv.
  destruct (Z.div_eucl m' (Zpos my)) as [q r]. destruct Hdiv as [Hqr Hr].
  exists q, e', (new_location (Zpos my) r). split; [done|].
  pose proof (digits2_pos_bounds mx) as [Hmx _]. fold d1 in Hmx.
  pose proof (digits2_pos_bounds my) as [_ Hmy]. fold d2 in Hmy.
  assert (0 < 2 ^ s) as Hps by (apply Z.pow_pos_nonneg; lia).
  assert (0 <= q) as Hq by nia.
  split; [done|].
  assert (e' <= fexp prec emax T) as He' by (subst e'; lia).
  destruct (Z_le_gt_dec 1 (d1 + s - d2)) as [Hbig|Hsmall].
  - (* the quotient has at least d1 + s - d2 digits *)
    assert (2 ^ (d1 + s - d2 - 1) <= q) as Hlow.
    { assert (2 ^ (d1 - 1 + s) = 2 ^ (d1 + s - d2 - 1) * 2 ^ d2) as Hsplit.
      { rewrite <- Z.pow_add_r by lia. f_equal. lia. }
      assert (2 ^ (d1 - 1 + s) <= m') as Hm'low.
      { rewrite Hm', Z.pow_add_r by lia. nia. }
      assert (0 < 2 ^ (d1 + s - d2 - 1)) by (apply Z.pow_pos_nonneg; lia).
      nia. }
    apply Zdigits2_ge_pow in Hlow; [|lia].
    rewrite !fexp_unfold in *. subst s T. lia.
  - pose proof (Zdigits2_nonneg q).
    rewrite !fexp_unfold in *. subst s T. lia.
Qed.

(** Every quotient is in normal form. *)
Lemma SFdiv_canonical (x y : spec_float) :
  match SFdiv prec emax x y with
  | S754_finite _ p e =>
      fexp prec emax (Zpos (digits2_pos p) + e) = e /\ e <= emax - prec
  | _ => True
  end.
Proof.
  destruct x as [sx|sx| |sx mx ex], y as [sy|sy| |sy my ey]; try done.
  cbn [SFdiv].
  destruct (SFdiv_core_binary_digits mx ex my ey) as (q & e' & l & -> & Hq & He').
  by apply binary_round_aux_canonical.
Qed.

End rounding_canonical.

Lemma F64_div_canonical (x y : float64) : canonical (F64.div x y).
Proof. apply (SFdiv_canonical F64.prec F64.emax F64_prec_pos). Qed.

(** A finite number in normal form divided by 1 is itself. *)
Lemma F64_div_1 (sx : bool) (mx : positive) (ex : Z) :
  canonical (S754_finite sx mx ex) ->
  F64.div (S754_finite sx mx ex) (F64.of_Z 1) = S754_finite sx mx ex.
Proof.
  unfold canonical, F64.prec, F64.emax. rewrite fexp_unfold. intros [Hcan Hex].
  set (d := Zpos (digits2_pos mx)) in *.
  assert (0 < d) as Hd by (subst d; lia).
  rewrite F64_of_Z_1. unfold F64.div, F64.prec, F64.emax.
  cbn [SFdiv]. unfold SFdiv_core_binary. cbn [Zdigits2]. fold d.
  change (Zpos (digits2_pos 4503599627370496)) with 53.
  (* the exponent of the quotient mantissa is [ex - k], [k] being 0 or 1 *)
  set (k := if Z_lt_dec (-1074) ex then 1 else 0).
  assert ((k = 0 /\ ex <= -1074) \/ (k = 1 /\ -1074 < ex)) as Hkdef
    by (subst k; destruct (Z_lt_dec (-1074) ex); lia).
  clearbody k.
  assert (Z.min (fexp 53 1024 (d + ex - (53 + -52))) (ex - -52) = ex - k) as ->
    by (rewrite fexp_unfold; lia).
  replace (ex - -52 - (ex - k)) with (52 + k) by lia.
  assert (0 <= k <= 1) as Hk by lia.
  assert (Z.div_eucl (Zpos mx * 2 ^ (52 + k)) 4503599627370496 = (Zpos mx * 2 ^ k, 0))
    as Hdiv.
  { pose proof (Z_div_mod (Zpos mx * 2 ^ (52 + k)) 4503599627370496 ltac:(lia)) as Hdm.
    destruct (Z.div_eucl _ _) as [q r]. destruct Hdm as [Hq Hr].
    rewrite Z.pow_add_r in Hq by lia. change (2 ^ 52) with 4503599627370496 in Hq.
    assert (0 < 2 ^ k) by (apply Z.pow_pos_nonneg; lia).
    f_equal; nia. }
  assert ((match 52 + k with
           | Zpos _ => Z.shiftl (Zpos mx) (52 + k)
           | Z0 => Zpos mx
           | Zneg _ => 0
           end) = Zpos mx * 2 ^ (52 + k)) as ->.
  { destruct (52 + k) as [|p|p] eqn:Hp; [lia| |lia]. by rewrite Z.shiftl_mul_pow2. }
  rewrite Hdiv.
  change (new_location 4503599627370496 0) with loc_Exact.
  assert (xorb sx false = sx) as -> by (by destruct sx).
  unfold binary_round_aux, shr_fexp.
  destruct (Z.eq_dec k 0) as [Hk0|Hk1].
  - (* subnormal numbers and the smallest binade: no shift at all *)
    rewrite Hk0. change (2 ^ 0) with 1. rewrite Z.mul_1_r, Z.sub_0_r.
    cbn [Zdigits2]. fold d.
    assert (fexp 53 1024 (d + ex) - ex = 0) as -> by (rewrite fexp_unfold; lia).
    cbn [shr shr_record_of_loc loc_of_shr_record round_nearest_even shr_m Zdigits2].
    fold d.
    assert (fexp 53 1024 (d + ex) - ex = 0) as -> by (rewrite fexp_unfold; lia).
    cbn [shr shr_record_of_loc shr_m].
    destruct (Z.leb_spec ex (1024 - 53)); [done|lia].
  - (* normal numbers: the mantissa is doubled, and halved again *)
    assert (d = 53) as Hd53 by lia.
    assert (k = 1) as -> by lia. change (2 ^ 1) with 2.
    replace (Zpos mx * 2) with (Zpos mx~0) by lia.
    cbn [Zdigits2 digits2_pos]. rewrite Pos2Z.inj_succ. fold d.
    assert (fexp 53 1024 (Z.succ d + (ex - 1)) - (ex - 1) = 1) as ->
      by (rewrite fexp_unfold; lia).
    cbn [shr shr_record_of_loc SpecFloat.iter_pos shr_1 loc_of_shr_record
         round_nearest_even shr_m orb Zdigits2].
    fold d.
    assert (fexp 53 1024 (d + (ex - 1 + 1)) - (ex - 1 + 1) = 0) as ->
      by (rewrite fexp_unfold; lia).
    cbn [shr shr_record_of_loc shr_m].
    replace (ex - 1 + 1) with ex by lia.
    destruct (Z.leb_spec ex (1024 - 53)); [done|lia].
Qed.

(* ===================================================================== *)
(** ** A single valid row *)
(* ===================================================================== *)

Lemma py_truediv_canonical (a b : PyObject) (q : float64) :
  py_truediv a b = Ok q -> canonical q.
Proof.
  destruct a as [| |n|x], b as [| |m|y]; cbn; try discriminate.
  - destruct (m =? 0); [discriminate|].
    destruct (F64.is_inf _); [discriminate|]. intros [= <-]. apply F64_div_canonical.
  - destruct (F64.is_inf (F64.of_Z n)); [discriminate|]. cbn.
    destruct (F64.is_zero y); [discriminate|]. intros [= <-]. apply F64_div_canonical.
  - destruct (F64.is_inf (F64.of_Z m)); [discriminate|]. cbn.
    destruct (F64.is_zero _); [discriminate|]. intros [= <-]. apply F64_div_canonical.
  - destruct (F64.is_zero y); [discriminate|]. intros [= <-]. apply F64_div_canonical.
Qed.

Lemma ratio_canonical (object_dtype : bool) (rw : row) (q : float64) :
  ratio object_dtype rw = Ok q -> canonical q.
Proof.
  unfold ratio. destruct object_dtype.
  - apply py_truediv_canonical.
  - intros [= <-]. apply F64_div_canonical.
Qed.

(** The pandas mean of one number is that number ([-0.0] apart, which
    the sum of a [float64] array, starting at [+0.0], turns into [+0.0]). *)
Lemma nanmean_singleton (object_dtype : bool) (q : float64) :
  canonical q -> q <> S754_zero true -> nanmean object_dtype [q] = q.
Proof.
  intros Hcan Hq. destruct q as [[]|s| |s m e]; try done.
  - by destruct object_dtype.
  - by destruct object_dtype, s.
  - change (nanmean object_dtype [S754_finite s m e])
      with (F64.div (nansum object_dtype [S754_finite s m e]) (F64.of_Z 1)).
    replace (nansum object_dtype [S754_finite s m e]) with (S754_finite s m e)
      by (by destruct object_dtype).
    by apply F64_div_1.
Qed.

(** X8: a table with a single valid row returns the ratio of that row
    (unless that ratio is [-0.0]). *)
Theorem single_valid_row
    (currency_a currency_b : string) (price_data : ref) (σ : store) (df : DataFrame)
    (price_a price_b : Series) (rw : row) (q : float64) :
  σ !! price_data = Some df ->
  wf_frame df ->
  columns df !! "Price_A" = Some price_a ->
  columns df !! "Price_B" = Some price_b ->
  valid_rows price_a price_b = [rw] ->
  ratio (is_object price_a || is_object price_b) rw = Ok q ->
  q <> S754_zero true ->
  (calculate_ppp (PyStr currency_a) (PyStr currency_b) price_data σ).1 = Ok q.
Proof.
  intros Hr Hwf Ha Hb Hrows Hq Hnz.
  rewrite (calculate_ppp_rows _ _ _ _ _ _ _ Hr Hwf Ha Hb), Hrows.
  unfold ppp_of_rows. cbn [result_mapM]. rewrite Hq. cbn. f_equal.
  apply nanmean_singleton; [by eapply ratio_canonical|done].
Qed.

Lemma single_valid_row_witness :
  ({[ Tests.price_data := MoreTables.one_valid_row ]} : store) !! Tests.price_data
    = Some MoreTables.one_valid_row /\
  wf_frame MoreTables.one_valid_row /\
  columns MoreTables.one_valid_row !! "Price_A"
    = Some (ObjectSeries [PyStr "n/a"; PyInt 3]) /\
  columns MoreTables.one_valid_row !! "Price_B" = Some (Int64Series [1; 4]) /\
  valid_rows (ObjectSeries [PyStr "n/a"; PyInt 3]) (Int64Series [1; 4])
    = [(PyInt 3, PyInt 4)] /\
  ratio (is_object (ObjectSeries [PyStr "n/a"; PyInt 3]) || is_object (Int64Series [1; 4]))
    (PyInt 3, PyInt 4)
    = Ok (S754_finite false 6755399441055744 (-53)) /\
  S754_finite false 6755399441055744 (-53) <> S754_zero true /\
  (calculate_ppp (PyStr "USD") (PyStr "EUR") Tests.price_data
     {[ Tests.price_data := MoreTables.one_valid_row ]}).1
  = Ok (S754_finite false 6755399441055744 (-53)).
Proof.
  assert (Hwf : wf_frame MoreTables.one_valid_row)
    by (apply wf_frame_decide; vm_compute; reflexivity).
  assert (Hq : ratio (is_object (ObjectSeries [PyStr "n/a"; PyInt 3])
                      || is_object (Int64Series [1; 4])) (PyInt 3, PyInt 4)
               = Ok (S754_finite false 6755399441055744 (-53)))
    by (vm_compute; reflexivity).
  assert (Hnz : S754_finite false 6755399441055744 (-53) <> S754_zero true)
    by discriminate.
  split; [apply store_lookup_price_data|]. split; [exact Hwf|].
  split; [reflexivity|]. split; [reflexivity|]. split; [reflexivity|].
  split; [exact Hq|]. split; [exact Hnz|].
  exact (single_valid_row "USD" "EUR" Tests.price_data _ MoreTables.one_valid_row
           (ObjectSeries [PyStr "n/a"; PyInt 3]) (Int64Series [1; 4])
           (PyInt 3, PyInt 4) (S754_finite false 6755399441055744 (-53))
           (store_lookup_price_data _) Hwf eq_refl eq_refl eq_refl Hq Hnz).
Defined.

(* ===================================================================== *)
(** ** When the call returns a value *)
(* ===================================================================== *)

(** X9: when no valid row has a zero [Price_B] and the integers fit 64 bits,
    the call returns a value, whatever the dtypes of the price columns. *)
Theorem nonzero_price_b_returns
    (currency_a currency_b : string) (price_data : ref) (σ : store) (df : DataFrame)
    (price_a price_b : Series) :
  σ !! price_data = Some df ->
  wf_frame df ->
  columns df !! "Price_A" = Some price_a ->
  columns df !! "Price_B" = Some price_b ->
  valid_rows price_a price_b <> [] ->
  Forall (fun rw => fits_int64 rw.1 = true /\ fits_int64 rw.2 = true /\
                    zero_price rw.2 = false)
    (valid_rows price_a price_b) ->
  exists v,
    (calculate_ppp (PyStr currency_a) (PyStr currency_b) price_data σ).1 = Ok v.
Proof.
  intros Hr Hwf Ha Hb Hne Hok.
  destruct (ratios_return price_a price_b Hok) as [rs Hrs].
  exists (nanmean (is_object price_a || is_object price_b) rs).
  by apply mean_skips_nan with (df := df).
Qed.

Lemma nonzero_price_b_returns_witness :
  ({[ Tests.price_data := Tests.non_numeric_prices ]} : store) !! Tests.price_data
    = Some Tests.non_numeric_prices /\
  wf_frame Tests.non_numeric_prices /\
  columns Tests.non_numeric_prices !! "Price_A"
    = Some (ObjectSeries [PyInt 100; PyStr "a"; PyInt 150]) /\
  columns Tests.non_numeric_prices !! "Price_B" = Some (Int64Series [10; 20; 15]) /\
  valid_rows (ObjectSeries [PyInt 100; PyStr "a"; PyInt 150]) (Int64Series [10; 20; 15])
    <> [] /\
  Forall (fun rw => fits_int64 rw.1 = true /\ fits_int64 rw.2 = true /\
                    zero_price rw.2 = false)
    (valid_rows (ObjectSeries [PyInt 100; PyStr "a"; PyInt 150])
                (Int64Series [10; 20; 15])) /\
  exists v,
    (calculate_ppp (PyStr "USD") (PyStr "EUR") Tests.price_data
       {[ Tests.price_data := Tests.non_numeric_prices ]}).1 = Ok v.
Proof.
  assert (Hne : valid_rows (ObjectSeries [PyInt 100; PyStr "a"; PyInt 150])
                  (Int64Series [10; 20; 15]) <> [])
    by (vm_compute; discriminate).
  assert (Hok : Forall (fun rw => fits_int64 rw.1 = true /\ fits_int64 rw.2 = true /\
                                  zero_price rw.2 = false)
                  (valid_rows (ObjectSeries [PyInt 100; PyStr "a"; PyInt 150])
                              (Int64Series [10; 20; 15]))).
  { change (valid_rows (ObjectSeries [PyInt 100; PyStr "a"; PyInt 150])
                      (Int64Series [10; 20; 15]))
      with [(PyInt 100, PyInt 10); (PyInt 150, PyInt 15)].
    repeat (apply Forall_cons_2; [split; [|split]; vm_compute; reflexivity|]).
    apply Forall_nil_2. }
  split; [apply store_lookup_price_data|]. split; [apply wf_non_numeric_prices|].
  split; [reflexivity|]. split; [reflexivity|].
  split; [exact Hne|]. split; [exact Hok|].
  exact (nonzero_price_b_returns "USD" "EUR" Tests.price_data _ Tests.non_numeric_prices
           (ObjectSeries [PyInt 100; PyStr "a"; PyInt 150]) (Int64Series [10; 20; 15])
           (store_lookup_price_data _) wf_non_numeric_prices eq_refl eq_refl Hne Hok).
Defined.
